(** * PersonaLive-Blackwell launcher: GPU selection, engine cache, launch

    A shallow embedding of [src/launcher.py] and, further down, of the
    patch utility [src/apply_patches.py].  The launcher probes the host
    for GPUs with [nvidia-smi], selects one, makes sure the TensorRT engine
    compiled for that GPU sits at the active path (restoring it from a
    per-device cache file or building it), and launches the inference script
    bound to that GPU.

    Modelling choices.
    - A Python [str] is a list of Unicode code points ([N]); [str "..."]
      embeds an ASCII literal.
    - The file system is a finite map from paths to file contents (regular
      files only, no links, no permissions).
    - Python functions with effects live in a state-and-exception monad
      [M]: the state holds the file system, the unread lines of standard
      input and the chronological trace of observable actions (prints,
      prompts, child processes, file copies).
    - Everything outside the repository is a field of the record [host]:
      the builtins [int], [str.strip] and [csv.reader], the interpreter
      path, the process environment, and the behaviour of the three child
      programs. *)

From Stdlib Require Import ZArith Ascii String List.
From Stdlib.Strings Require Import Byte.
From stdpp Require Import gmap strings list fin_maps pretty.

Local Open Scope Z_scope.

(** ** Strings *)

Abbreviation pystr := (list N).
Abbreviation bytes := (list byte).

(** An ASCII literal as a Python string. *)
Definition str (s : string) : pystr :=
  (fun a => N_of_ascii a) <$> list_ascii_of_string s.

(** [str(i)] for a Python [int]: the decimal numeral, with a leading minus
    sign for negative numbers. *)
Definition py_str (i : Z) : pystr := str (pretty i).

(** ** Configuration paths (launcher.py, lines 11-14) *)

Definition ENGINE_DIR : pystr := str "./pretrained_weights/tensorrt".
Definition ACTIVE_ENGINE_NAME : pystr := str "unet_work.engine".
Definition BUILD_SCRIPT : pystr := str "torch2trt.py".
Definition INFERENCE_SCRIPT : pystr := str "inference_online.py".

Definition CUDA_VISIBLE_DEVICES : pystr := str "CUDA_VISIBLE_DEVICES".

(** [os.path.join(a, b)] on POSIX. *)
Definition os_path_join (a b : pystr) : pystr :=
  match b with
  | 47%N :: _ => b
  | _ =>
      match last a with
      | None => b
      | Some 47%N => a ++ b
      | Some _ => a ++ 47%N :: b
      end
  end.

(** ** Name sanitization (launcher.py, lines 40-42) *)

(** The complement of the character class [[^a-zA-Z0-9]]. *)
Definition is_alnum (c : N) : bool :=
  ((97 <=? c) && (c <=? 122) || (65 <=? c) && (c <=? 90)
   || (48 <=? c) && (c <=? 57))%N.

(** Membership in [[A-Za-z0-9_]]. *)
Definition is_word_char (c : N) : bool := is_alnum c || (c =? 95)%N.

(** [re.sub(r'[^a-zA-Z0-9]', '_', name)]: the pattern matches one character
    at a time, so every character outside the class becomes an underscore. *)
Definition get_sanitized_name (name : pystr) : pystr :=
  (fun c => if is_alnum c then c else 95%N) <$> name.

(** ** Data model *)

(** The dict built for each device by the probe. *)
Record gpu := { index : Z; name : pystr; memory : pystr }.

(** The parsed command line: [--gpu] and the remainder arguments. *)
Record args := { gpu_arg : option Z; inference_args : list pystr }.

(** The exceptions that occur in the launcher. *)
Inductive exn :=
| FileNotFoundError
| CalledProcessError (returncode : Z)
| ValueError
| CsvError
| EOFError
| KeyboardInterrupt
| SystemExit (code : Z).

(** [isinstance(e, Exception)]: [KeyboardInterrupt] and [SystemExit] derive
    from [BaseException] only. *)
Definition is_Exception (e : exn) : bool :=
  match e with
  | KeyboardInterrupt | SystemExit _ => false
  | _ => true
  end.

Definition is_CalledProcessError (e : exn) : bool :=
  match e with CalledProcessError _ => true | _ => false end.

Definition is_KeyboardInterrupt (e : exn) : bool :=
  match e with KeyboardInterrupt => true | _ => false end.

(** One constructor per [print] call of the source. *)
Inductive message :=
| MsgQueryFailed (e : exn)            (* line 37 *)
| MsgFoundCached (gpu_name : pystr)   (* line 56 *)
| MsgRestoring (filename : pystr)     (* line 57 *)
| MsgNoEngine (gpu_name : pystr)      (* line 62 *)
| MsgStartingCompilation              (* line 63 *)
| MsgPleaseWait                       (* line 64 *)
| MsgCompilationFailed                (* line 74 *)
| MsgCaching (filename : pystr)       (* line 79 *)
| MsgBuildOutputMissing               (* line 83 *)
| MsgLaunching (gpu_index : Z)        (* line 88 *)
| MsgNoGpus                           (* line 109 *)
| MsgIndexNotFound (gpu_index : Z)    (* line 122 *)
| MsgDetected                         (* line 127 *)
| MsgGpuLine (g : gpu)                (* line 129 *)
| MsgBlank                            (* line 130 *)
| MsgAutoSelecting (gpu_name : pystr) (* line 134 *)
| MsgInvalidIndex                     (* line 144 *)
| MsgEnterNumber                      (* line 146 *)
| MsgSelected (gpu_index : Z) (gpu_name : pystr). (* line 148 *)

(** Observable actions, one constructor per kind of call site. *)
Inductive event :=
| Print (m : message)
| Input                                        (* input(...), line 138 *)
| Probe (cmd : list pystr)                     (* subprocess.run, line 24 *)
| Build (cmd : list pystr) (env : gmap pystr pystr)      (* line 72 *)
| Inference (cmd : list pystr) (env : gmap pystr pystr)  (* line 96 *)
| Copy2 (src dst : pystr).                     (* shutil.copy2 *)

Definition is_Build (e : event) : bool :=
  match e with Build _ _ => true | _ => false end.

Definition is_Inference (e : event) : bool :=
  match e with Inference _ _ => true | _ => false end.

Definition is_Copy2 (e : event) : bool :=
  match e with Copy2 _ _ => true | _ => false end.

(** How the device-listing command ends: the tool is not installed, or it
    exits with a return code after writing its standard output (as decoded
    text). *)
Inductive probe_result :=
| ToolMissing
| Listed (returncode : Z) (stdout : pystr).

(** How a child that inherits the terminal ends: it exits, or the operator
    interrupts the launcher while it waits. *)
Inductive child_result :=
| Exited (returncode : Z)
| Interrupted.

(** What the launcher takes from its surroundings. *)
Record host := {
  (** [int(s)]; [None] stands for [ValueError] *)
  py_int : pystr -> option Z;
  (** [s.strip()] *)
  py_strip : pystr -> pystr;
  (** [csv.reader(io.StringIO(s))]: the rows it yields, and whether it then
      raises [csv.Error] *)
  csv_reader : pystr -> list (list pystr) * bool;
  sys_executable : pystr;
  (** [os.environ] *)
  environ : gmap pystr pystr;
  (** the outcome of [nvidia-smi --query-gpu=... --format=csv,noheader] *)
  nvidia_smi : probe_result;
  (** [torch2trt.py] under an environment, acting on the file system *)
  torch2trt : gmap pystr pystr -> gmap pystr bytes ->
              child_result * gmap pystr bytes;
  (** [inference_online.py] under an environment, given the command line *)
  inference_online : gmap pystr pystr -> list pystr -> gmap pystr bytes ->
                     child_result * gmap pystr bytes
}.

(** ** The state-and-exception monad *)

Record state := {
  fs : gmap pystr bytes;
  stdin : list pystr;
  trace : list event
}.

Definition initial (files : gmap pystr bytes) (lines : list pystr) : state :=
  {| fs := files; stdin := lines; trace := [] |}.

Definition log (e : event) (s : state) : state :=
  {| fs := fs s; stdin := stdin s; trace := trace s ++ [e] |}.

Definition set_fs (files : gmap pystr bytes) (s : state) : state :=
  {| fs := files; stdin := stdin s; trace := trace s |}.

Definition set_stdin (lines : list pystr) (s : state) : state :=
  {| fs := fs s; stdin := lines; trace := trace s |}.

Inductive result (A : Type) :=
| Ok (a : A)
| Raise (e : exn).
Arguments Ok {A} a.
Arguments Raise {A} e.

Definition M (A : Type) : Type := state -> result A * state.

Definition ret {A} (a : A) : M A := fun s => (Ok a, s).

Definition raise {A} (e : exn) : M A := fun s => (Raise e, s).

Definition bind {A B} (m : M A) (k : A -> M B) : M B :=
  fun s =>
    match m s with
    | (Ok a, s') => k a s'
    | (Raise e, s') => (Raise e, s')
    end.

(** [try: m  except <class> as e: h e]; the effects of [m] up to the raise
    are kept. *)
Definition try_except {A} (m : M A) (class : exn -> bool) (h : exn -> M A)
  : M A :=
  fun s =>
    match m s with
    | (Ok a, s') => (Ok a, s')
    | (Raise e, s') => if class e then h e s' else (Raise e, s')
    end.

Declare Scope py_scope.
Delimit Scope py_scope with py.
Notation "'let!' x := m 'in' k" := (bind m (fun x => k))
  (at level 10, x name, m at level 100, k at level 200) : py_scope.
Notation "m >> k" := (bind m (fun _ => k))
  (at level 100, k at level 200, right associativity) : py_scope.
Local Open Scope py_scope.

Definition print (m : message) : M unit := fun s => (Ok tt, log (Print m) s).

(** [sys.exit(code)] *)
Definition sys_exit {A} (code : Z) : M A := raise (SystemExit code).

(** [os.path.exists(p)] *)
Definition os_path_exists (p : pystr) : M bool :=
  fun s => (Ok (bool_decide (is_Some (fs s !! p))), s).

(** [shutil.copy2(src, dst)]: the destination gets the content of the
    source; a missing source raises. *)
Definition shutil_copy2 (src dst : pystr) : M unit :=
  fun s =>
    match fs s !! src with
    | Some c => (Ok tt, log (Copy2 src dst) (set_fs (<[dst := c]> (fs s)) s))
    | None => (Raise FileNotFoundError, s)
    end.


(** ** The launcher, relative to a host *)

Section Launcher.

Variable H : host.

(** [subprocess.run(cmd, capture_output=True, text=True, check=True)] at
    line 24, returning [result.stdout]. *)
Definition run_probe (cmd : list pystr) : M pystr :=
  fun s =>
    let s' := log (Probe cmd) s in
    match nvidia_smi H with
    | ToolMissing => (Raise FileNotFoundError, s')
    | Listed rc out =>
        if rc =? 0 then (Ok out, s') else (Raise (CalledProcessError rc), s')
    end.

(** [subprocess.run(cmd, env=env, check=True)] at line 72. *)
Definition run_build (cmd : list pystr) (env : gmap pystr pystr) : M unit :=
  fun s =>
    let '(r, files) := torch2trt H env (fs s) in
    let s' := set_fs files (log (Build cmd env) s) in
    match r with
    | Exited rc =>
        if rc =? 0 then (Ok tt, s') else (Raise (CalledProcessError rc), s')
    | Interrupted => (Raise KeyboardInterrupt, s')
    end.

(** [subprocess.run(cmd, env=env)] at line 96: the return code is not
    checked. *)
Definition run_child (cmd : list pystr) (env : gmap pystr pystr) : M unit :=
  fun s =>
    let '(r, files) := inference_online H env cmd (fs s) in
    let s' := set_fs files (log (Inference cmd env) s) in
    match r with
    | Exited _ => (Ok tt, s')
    | Interrupted => (Raise KeyboardInterrupt, s')
    end.

(** The loop of lines 28-34 over the rows the reader yields, with the list
    [gpus] built so far. *)
Fixpoint parse_rows (gpus : list gpu) (rows : list (list pystr))
  : result (list gpu) :=
  match rows with
  | [] => Ok gpus
  | row :: rest =>
      match row with
      | f0 :: f1 :: f2 :: _ =>
          match py_int H (py_strip H f0) with
          | Some i =>
              parse_rows
                (gpus ++ [{| index := i; name := py_strip H f1;
                             memory := py_strip H f2 |}])
                rest
          | None => Raise ValueError
          end
      | _ => parse_rows gpus rest
      end
  end.

(** Lines 26-35: the rows are read lazily, so an error of the reader comes
    after the rows before it were handled. *)
Definition parse_report (stdout : pystr) : M (list gpu) :=
  let '(rows, broken) := csv_reader H stdout in
  match parse_rows [] rows with
  | Ok gpus => if broken then raise CsvError else ret gpus
  | Raise e => raise e
  end.

Definition get_gpus_from_nvidia_smi : M (list gpu) :=
  try_except
    (let! stdout :=
       run_probe [str "nvidia-smi";
                  str "--query-gpu=index,name,memory.total";
                  str "--format=csv,noheader"] in
     parse_report stdout)
    is_Exception
    (fun e => print (MsgQueryFailed e) >> ret []).

Definition cached_engine_filename (gpu_info : gpu) : pystr :=
  str "unet_work_" ++ get_sanitized_name (name gpu_info) ++ str ".engine".

Definition active_engine_path : pystr :=
  os_path_join ENGINE_DIR ACTIVE_ENGINE_NAME.

Definition cached_engine_path (gpu_info : gpu) : pystr :=
  os_path_join ENGINE_DIR (cached_engine_filename gpu_info).

(** [env = os.environ.copy(); env["CUDA_VISIBLE_DEVICES"] = str(i)] *)
Definition device_env (i : Z) : gmap pystr pystr :=
  <[CUDA_VISIBLE_DEVICES := py_str i]> (environ H).

(** Lines 44-84.  The [return False] of the handler at line 75 is the
    [false] that skips step 3. *)
Definition manage_engine (gpu_info : gpu) : M bool :=
  let! cached := os_path_exists (cached_engine_path gpu_info) in
  if cached then
    print (MsgFoundCached (name gpu_info)) >>
    print (MsgRestoring (cached_engine_filename gpu_info)) >>
    shutil_copy2 (cached_engine_path gpu_info) active_engine_path >>
    ret true
  else
    print (MsgNoEngine (name gpu_info)) >>
    print MsgStartingCompilation >>
    print MsgPleaseWait >>
    let env := device_env (index gpu_info) in
    let! built :=
      try_except
        (run_build [sys_executable H; BUILD_SCRIPT] env >> ret true)
        is_CalledProcessError
        (fun _ => print MsgCompilationFailed >> ret false) in
    if built then
      let! present := os_path_exists active_engine_path in
      if present then
        print (MsgCaching (cached_engine_filename gpu_info)) >>
        shutil_copy2 active_engine_path (cached_engine_path gpu_info) >>
        ret true
      else
        print MsgBuildOutputMissing >> ret false
    else ret false.

(** Lines 86-98. *)
Definition run_inference (gpu_index : Z) (extra_args : list pystr) : M unit :=
  print (MsgLaunching gpu_index) >>
  let env := device_env gpu_index in
  let cmd := [sys_executable H; INFERENCE_SCRIPT] ++ extra_args in
  try_except (run_child cmd env) is_KeyboardInterrupt (fun _ => ret tt).

(** The [for g in gpus: if g['index'] == idx: ...; break] of lines 117-120
    and 139-142: the first device with that index. *)
Definition find_gpu (idx : Z) (gpus : list gpu) : option gpu :=
  find (fun g => index g =? idx) gpus.

(** The [while True] loop of lines 136-146 over the lines still to be read
    from standard input: [input] raises [EOFError] when none is left, and
    that error is not caught here. *)
Fixpoint prompt_loop (gpus : list gpu) (lines : list pystr) : M gpu :=
  fun s =>
    match lines with
    | [] => (Raise EOFError, set_stdin [] (log Input s))
    | line :: rest =>
        let s' := set_stdin rest (log Input s) in
        match py_int H line with
        | Some idx =>
            match find_gpu idx gpus with
            | Some g => (Ok g, s')
            | None => prompt_loop gpus rest (log (Print MsgInvalidIndex) s')
            end
        | None => prompt_loop gpus rest (log (Print MsgEnterNumber) s')
        end
    end.

(** Lines 128-129. *)
Fixpoint print_gpus (gpus : list gpu) : M unit :=
  match gpus with
  | [] => ret tt
  | g :: rest => print (MsgGpuLine g) >> print_gpus rest
  end.

(** Lines 126-146: the listing, then the only device or the prompt. *)
Definition select_interactive (gpus : list gpu) : M gpu :=
  print MsgDetected >>
  print_gpus gpus >>
  print MsgBlank >>
  match gpus with
  | [g] => print (MsgAutoSelecting (name g)) >> ret g
  | _ => fun s => prompt_loop gpus (stdin s) s
  end.

(** Lines 113-146; [None] is the [return] of line 123. *)
Definition select_gpu (a : args) (gpus : list gpu) : M (option gpu) :=
  match gpu_arg a with
  | Some i =>
      match find_gpu i gpus with
      | Some g => ret (Some g)
      | None => print (MsgIndexNotFound i) >> ret None
      end
  | None => let! g := select_interactive gpus in ret (Some g)
  end.

(** Lines 156-158. *)
Definition pass_args (a : args) : list pystr :=
  if bool_decide (str "--acceleration" ∈ inference_args a)
  then inference_args a
  else inference_args a ++ [str "--acceleration"; str "tensorrt"].

(** Lines 106-148 of [main]: probe and select.  [None] stands for the two
    [return] statements (lines 110 and 123). *)
Definition choose_gpu (a : args) : M (option gpu) :=
  let! gpus := get_gpus_from_nvidia_smi in
  match gpus with
  | [] => print MsgNoGpus >> ret None
  | _ =>
      let! selected := select_gpu a gpus in
      match selected with
      | None => ret None
      | Some selected_gpu =>
          print (MsgSelected (index selected_gpu) (name selected_gpu)) >>
          ret (Some selected_gpu)
      end
  end.

(** Lines 100-160, after [parse_args]. *)
Definition main (a : args) : M unit :=
  let! selected := choose_gpu a in
  match selected with
  | None => ret tt
  | Some selected_gpu =>
      let! ok := manage_engine selected_gpu in
      if negb ok then sys_exit 1
      else run_inference (index selected_gpu) (pass_args a)
  end.

End Launcher.

(** The exit status of the interpreter after [main()] at line 163: 0 when
    [main] returns, the code given to [sys.exit], 1 when an exception
    escapes, and 130 (death by SIGINT, as shells report it) when that
    exception is [KeyboardInterrupt]. *)
Definition exit_status (r : result unit) : Z :=
  match r with
  | Ok _ => 0
  | Raise (SystemExit code) => code
  | Raise KeyboardInterrupt => 130
  | Raise _ => 1
  end.

(** A whole run of the launcher on a host, a file system and the lines
    typed by the operator. *)
Definition run (H : host) (a : args) (files : gmap pystr bytes)
    (lines : list pystr) : result unit * state :=
  main H a (initial files lines).

(** ** The probe, in the words of its contract *)

(** A row with at least three fields as a device; [None] when its first
    field is not a number. *)
Definition device_of_row (H : host) (row : list pystr) : option gpu :=
  match row with
  | f0 :: f1 :: f2 :: _ =>
      i ← py_int H (py_strip H f0);
      Some {| index := i; name := py_strip H f1; memory := py_strip H f2 |}
  | _ => None
  end.

(** The devices of a report: rows with fewer than three fields are
    skipped, every other row must parse. *)
Definition parsed_devices (H : host) (rows : list (list pystr))
  : option (list gpu) :=
  mapM (device_of_row H) (filter (fun row => (3 <= length row)%nat) rows).

(** The devices the probe has found when nothing went wrong: the command
    exists, exits with 0, and its output parses. *)
Definition probe_success (H : host) : option (list gpu) :=
  match nvidia_smi H with
  | Listed 0 out =>
      let '(rows, broken) := csv_reader H out in
      if broken then None else parsed_devices H rows
  | _ => None
  end.

Definition probe_cmd : list pystr :=
  [str "nvidia-smi"; str "--query-gpu=index,name,memory.total";
   str "--format=csv,noheader"].

(** ** A host to run the launcher on *)

Module Demo.

(** The builtins on ASCII text without quoted fields, as [nvidia-smi]
    prints it. *)
Definition is_space (c : N) : bool :=
  ((c =? 32) || (9 <=? c) && (c <=? 13))%N.

Fixpoint lstrip (s : pystr) : pystr :=
  match s with
  | c :: r => if is_space c then lstrip r else s
  | [] => []
  end.

Definition strip (s : pystr) : pystr := rev (lstrip (rev (lstrip s))).

Fixpoint digits (acc : Z) (s : pystr) : option Z :=
  match s with
  | [] => Some acc
  | c :: r =>
      if ((48 <=? c) && (c <=? 57))%N
      then digits (10 * acc + Z.of_N (c - 48)) r
      else None
  end.

Definition int (s : pystr) : option Z :=
  match strip s with
  | [] => None
  | 45%N :: (_ :: _) as r => Z.opp <$> digits 0 r
  | r => digits 0 r
  end.

Fixpoint split_on (sep : N) (s : pystr) : list pystr :=
  match s with
  | [] => [[]]
  | c :: r =>
      if (c =? sep)%N then [] :: split_on sep r
      else match split_on sep r with
           | w :: ws => (c :: w) :: ws
           | [] => [[c]]
           end
  end.

Definition csv (s : pystr) : list (list pystr) * bool :=
  ((fun line => match line with [] => [] | _ => split_on 44 line end)
     <$> filter (fun line => line <> []) (split_on 10 s), false).

Definition A100 : gpu :=
  {| index := 0; name := str "A100"; memory := str "40960 MiB" |}.
Definition H100 : gpu :=
  {| index := 1; name := str "H100"; memory := str "81559 MiB" |}.

(** A build that writes the active engine and exits with [rc]. *)
Definition build_writing (content : bytes) (rc : Z)
    (env : gmap pystr pystr) (files : gmap pystr bytes)
  : child_result * gmap pystr bytes :=
  (Exited rc,
   <[os_path_join ENGINE_DIR ACTIVE_ENGINE_NAME := content]> files).

(** A build that exits with [rc] and writes nothing. *)
Definition build_idle (rc : Z)
    (env : gmap pystr pystr) (files : gmap pystr bytes)
  : child_result * gmap pystr bytes :=
  (Exited rc, files).

(** An inference process that ends with [r] and writes nothing. *)
Definition inference_ending (r : child_result)
    (env : gmap pystr pystr) (cmd : list pystr) (files : gmap pystr bytes)
  : child_result * gmap pystr bytes :=
  (r, files).

Definition host_with (smi : probe_result)
    (build : gmap pystr pystr -> gmap pystr bytes ->
             child_result * gmap pystr bytes)
    (r : child_result) : host :=
  {| py_int := int; py_strip := strip; csv_reader := csv;
     sys_executable := str "/usr/bin/python3";
     environ := {[ str "HOME" := str "/root" ]};
     nvidia_smi := smi;
     torch2trt := build;
     inference_online := inference_ending r |}.

(** Two devices, as [nvidia-smi] lists them. *)
Definition two_gpus : probe_result :=
  Listed 0 (str "0, A100, 40960 MiB" ++ [10%N] ++
            str "1, H100, 81559 MiB" ++ [10%N]).

Definition engine : bytes := [x54; x52; x54].

Definition two_gpu_host : host :=
  host_with two_gpus (build_writing engine 0) (Exited 0).

End Demo.

(** The state when the build has ended. *)
Definition after_build (H : host) (g : gpu) (files : gmap pystr bytes)
    (s : state) : state :=
  set_fs files
    (log (Build [sys_executable H; BUILD_SCRIPT] (device_env H (index g)))
       (log (Print MsgPleaseWait)
          (log (Print MsgStartingCompilation)
             (log (Print (MsgNoEngine (name g))) s)))).

(** ** The patch utility (apply_patches.py) *)

(** [s.startswith(p)] *)
Fixpoint starts_with (p s : pystr) : bool :=
  match p, s with
  | [], _ => true
  | _ :: _, [] => false
  | c :: p', d :: s' => (c =? d)%N && starts_with p' s'
  end.

(** [p in s] for strings: [p] occurs somewhere in [s]. *)
Fixpoint contains (p s : pystr) : bool :=
  starts_with p s ||
  match s with
  | [] => false
  | _ :: s' => contains p s'
  end.

(** [s.replace(old, new)] for a non-empty [old], scanning from the left:
    at an occurrence of [old] the result gets [new] and the scan skips the
    occurrence, so replaced occurrences do not overlap.  [skip] counts the
    characters of an occurrence still to be skipped. *)
Fixpoint replace_from (old new : pystr) (skip : nat) (s : pystr) : pystr :=
  match s with
  | [] => []
  | c :: r =>
      match skip with
      | S k => replace_from old new k r
      | O =>
          if starts_with old s
          then new ++ replace_from old new (length old - 1) r
          else c :: replace_from old new 0 r
      end
  end.

Definition py_replace (old new s : pystr) : pystr := replace_from old new 0 s.

(** A sufficient condition for [replace] to leave no occurrence of [old]:
    the first character of [old] is not in [new], and no proper non-empty
    suffix of [old] is a prefix of [new] or has [new] as a prefix. *)
Definition overlap_free (old new : pystr) : bool :=
  match old with
  | [] => false
  | o :: _ =>
      forallb (fun c => negb (o =? c)%N) new &&
      forallb
        (fun i => negb (starts_with (drop i old) new
                        || starts_with new (drop i old)))
        (seq 1 (length old - 1))
  end.

(** Lines 12, 27 and 28. *)
Definition my_patch : pystr := str "patches/torch_cuda_init.py".
Definition broken_ref : pystr := str "onnx.helper.float32_to_bfloat16".
Definition fixed_code : pystr :=
  str "lambda x: (x.view(np.uint32) >> 16).astype(np.uint16)".

(** Lines 11 and 21: [os.path.join] of four components joins them one
    after the other. *)
Definition torch_cuda_init (site_packages : pystr) : pystr :=
  os_path_join
    (os_path_join (os_path_join site_packages (str "torch")) (str "cuda"))
    (str "__init__.py").

Definition onnx_exporter (site_packages : pystr) : pystr :=
  os_path_join
    (os_path_join (os_path_join site_packages (str "onnx_graphsurgeon"))
       (str "exporters"))
    (str "onnx_exporter.py").

(** What the patch utility takes from its surroundings: the list
    [site.getsitepackages()], and how a file opened in text mode is decoded
    when read ([None] stands for [UnicodeDecodeError]) and encoded when
    written (an encoding error is outside the model).  The files are a
    finite map from paths to bytes, as for the launcher. *)
Record patch_host := {
  getsitepackages : list pystr;
  decode : bytes -> option pystr;
  encode : pystr -> bytes
}.

Inductive patch_exn :=
| IndexError            (* line 8 on an empty list *)
| UnicodeDecodeError.   (* line 25 *)

(** One constructor per [print] call of the source. *)
Inductive patch_message :=
| MsgApplyingFix (path : pystr)   (* line 15 *)
| MsgTorchNotFound                (* line 18 *)
| MsgPatchingOnnx (path : pystr)  (* line 23 *)
| MsgOnnxApplied                  (* line 34 *)
| MsgOnnxAlready.                 (* line 36 *)

(** The files and the lines printed so far. *)
Record patch_state := {
  files : gmap pystr bytes;
  printed : list patch_message
}.

Definition patch_print (m : patch_message) (s : patch_state) : patch_state :=
  {| files := files s; printed := printed s ++ [m] |}.

Definition patch_write (path : pystr) (content : bytes) (s : patch_state)
  : patch_state :=
  {| files := <[path := content]> (files s); printed := printed s |}.

(** Lines 10-18: the PyTorch patch.  [shutil.copyfile] gives the
    destination the bytes of the source. *)
Definition patch_torch (site_packages : pystr) (s : patch_state)
  : patch_state :=
  match files s !! torch_cuda_init site_packages, files s !! my_patch with
  | Some _, Some patch =>
      patch_write (torch_cuda_init site_packages) patch
        (patch_print (MsgApplyingFix (torch_cuda_init site_packages)) s)
  | _, _ => patch_print MsgTorchNotFound s
  end.

(** Lines 20-36: the ONNX GraphSurgeon patch. *)
Definition patch_onnx (H : patch_host) (site_packages : pystr)
    (s : patch_state) : option patch_exn * patch_state :=
  match files s !! onnx_exporter site_packages with
  | Some raw =>
      let s1 := patch_print (MsgPatchingOnnx (onnx_exporter site_packages)) s in
      match decode H raw with
      | Some content =>
          if contains broken_ref content then
            (None,
             patch_print MsgOnnxApplied
               (patch_write (onnx_exporter site_packages)
                  (encode H (py_replace broken_ref fixed_code content)) s1))
          else (None, patch_print MsgOnnxAlready s1)
      | None => (Some UnicodeDecodeError, s1)
      end
  | None => (None, s)
  end.

(** Lines 6-36; the first component is the exception that escapes, if
    any. *)
Definition apply_patches (H : patch_host) (s : patch_state)
  : option patch_exn * patch_state :=
  match getsitepackages H with
  | [] => (Some IndexError, s)
  | site_packages :: _ => patch_onnx H site_packages (patch_torch site_packages s)
  end.

(** A codec for examples: one byte per character below 256. *)
Definition latin1_decode (raw : bytes) : option pystr :=
  Some ((fun b => Byte.to_N b) <$> raw).

Definition latin1_encode (text : pystr) : bytes :=
  (fun c => match Byte.of_N c with Some b => b | None => x3f end) <$> text.

Definition demo_patch_host : patch_host :=
  {| getsitepackages := [str "/venv/lib/python3.12/site-packages"];
     decode := latin1_decode; encode := latin1_encode |}.

(** ** Vocabulary for the selection and for counting children *)

(** The device a typed line selects at the prompt: the line must be a
    number and a listed device must have that index. *)
Definition valid_choice (H : host) (gpus : list gpu) (line : pystr)
  : option gpu :=
  match py_int H line with
  | Some idx => find_gpu idx gpus
  | None => None
  end.

(** How many events of a kind a trace has. *)
Definition count_events (p : event -> bool) (evs : list event) : nat :=
  length (List.filter p evs).

Definition is_Input (e : event) : bool :=
  match e with Input => true | _ => false end.

(** Several events at once. *)
Definition log_all (evs : list event) (s : state) : state :=
  {| fs := fs s; stdin := stdin s; trace := trace s ++ evs |}.

(** The state at the prompt or at the automatic selection: the listing of
    lines 127-130 has been printed. *)
Definition listed (gpus : list gpu) (s : state) : state :=
  log (Print MsgBlank)
    (log_all ((fun g => Print (MsgGpuLine g)) <$> gpus)
       (log (Print MsgDetected) s)).

(** ** Relations between the state before and after a computation *)

(** The trace grew by events that all satisfy [P]. *)
Definition extends (P : event -> Prop) (s s' : state) : Prop :=
  exists evs, trace s' = trace s ++ evs /\ Forall P evs.

(** The file system is the same. *)
Definition same_files (s s' : state) : Prop := fs s' = fs s.

(** No child that writes was started and no file was copied or written:
    the footprint of the probe and of the selection. *)
Definition no_side_effect (e : event) : Prop :=
  is_Build e = false /\ is_Inference e = false /\ is_Copy2 e = false.

Definition no_inference (e : event) : Prop := is_Inference e = false.

Definition no_build (e : event) : Prop := is_Build e = false.

(** The environment of every child started for a device restricts it to
    that device. *)
Definition bound_to (H : host) (i : Z) (e : event) : Prop :=
  match e with
  | Build _ env | Inference _ env => env = device_env H i
  | _ => True
  end.

(** The command line of every inference child. *)
Definition forwards (H : host) (extra_args : list pystr) (e : event) : Prop :=
  match e with
  | Inference cmd _ => cmd = [sys_executable H; INFERENCE_SCRIPT] ++ extra_args
  | _ => True
  end.

(** [m] relates every state to the state it leaves. *)
Definition steps (R : relation state) {A} (m : M A) : Prop :=
  forall s, R s (m s).2.

#[global] Instance extends_preorder P : PreOrder (extends P).
Proof.
  split.
  - intros s. exists []. by rewrite app_nil_r.
  - intros s1 s2 s3 (e1 & E1 & F1) (e2 & E2 & F2).
    exists (e1 ++ e2). rewrite E2, E1, <- app_assoc. split; [done|].
    by apply Forall_app.
Qed.

#[global] Instance same_files_preorder : PreOrder same_files.
Proof.
  split; [by intros s|]. unfold same_files. intros s1 s2 s3 E1 E2. congruence.
Qed.

Lemma extends_mono (P Q : event -> Prop) s s' :
  (forall e, P e -> Q e) -> extends P s s' -> extends Q s s'.
Proof.
  intros HPQ (evs & E & F). exists evs. split; [done|].
  eapply Forall_impl; eauto.
Qed.

Lemma extends_log (P : event -> Prop) e s : P e -> extends P s (log e s).
Proof. intros He. exists [e]. split; [done|]. by constructor. Qed.

Lemma extends_set_fs P files s : extends P s (set_fs files s).
Proof. exists []. simpl. by rewrite app_nil_r. Qed.

Lemma extends_set_stdin P lines s : extends P s (set_stdin lines s).
Proof. exists []. simpl. by rewrite app_nil_r. Qed.

(** From an empty trace, the whole trace satisfies [P]. *)
Lemma extends_initial P files lines s :
  extends P (initial files lines) s -> Forall P (trace s).
Proof. intros (evs & E & F). by rewrite E. Qed.

Section Steps.

Context (R : relation state) `{!PreOrder R}.

Lemma steps_ret {A} (a : A) : steps R (ret a).
Proof. intros s. reflexivity. Qed.

Lemma steps_raise {A} e : steps R (@raise A e).
Proof. intros s. reflexivity. Qed.

Lemma steps_bind {A B} (m : M A) (k : A -> M B) :
  steps R m -> (forall a, steps R (k a)) -> steps R (bind m k).
Proof.
  intros Hm Hk s. unfold bind. specialize (Hm s).
  destruct (m s) as [[a|e] s1]; simpl in *; [|done].
  etrans; [exact Hm|apply Hk].
Qed.

Lemma steps_try_except {A} (m : M A) class h :
  steps R m -> (forall e, steps R (h e)) -> steps R (try_except m class h).
Proof.
  intros Hm Hh s. unfold try_except. specialize (Hm s).
  destruct (m s) as [[a|e] s1]; simpl in *; [done|].
  destruct (class e); [|done]. etrans; [exact Hm|apply Hh].
Qed.

Lemma steps_os_path_exists p : steps R (os_path_exists p).
Proof. intros s. reflexivity. Qed.

End Steps.

Create HintDb steps.
#[global] Hint Resolve steps_ret steps_raise steps_bind steps_try_except
  steps_os_path_exists : steps.
#[global] Hint Extern 1 (PreOrder _) => apply _ : steps.

(** ** What each operation adds to the trace and does to the files *)

Section Footprints.

Variable H : host.
Variable P : event -> Prop.

Lemma print_extends m : P (Print m) -> steps (extends P) (print m).
Proof. intros Hm s. by apply extends_log. Qed.

Lemma print_same_files m : steps same_files (print m).
Proof. by intros s. Qed.

Lemma shutil_copy2_extends src dst :
  P (Copy2 src dst) -> steps (extends P) (shutil_copy2 src dst).
Proof.
  intros Hc s. unfold shutil_copy2. destruct (fs s !! src); simpl.
  - etrans; [apply extends_set_fs|]. by apply extends_log.
  - reflexivity.
Qed.

Lemma run_probe_extends cmd : P (Probe cmd) -> steps (extends P) (run_probe H cmd).
Proof.
  intros Hc s. unfold run_probe.
  destruct (nvidia_smi H) as [|rc out]; [|destruct (rc =? 0)];
    by apply extends_log.
Qed.

Lemma run_probe_same_files cmd : steps same_files (run_probe H cmd).
Proof.
  intros s. unfold run_probe.
  by destruct (nvidia_smi H) as [|rc out]; [|destruct (rc =? 0)].
Qed.

Lemma run_build_extends cmd env :
  P (Build cmd env) -> steps (extends P) (run_build H cmd env).
Proof.
  intros Hc s. unfold run_build.
  destruct (torch2trt H env (fs s)) as [r files].
  assert (extends P s (set_fs files (log (Build cmd env) s))).
  { etrans; [by apply extends_log|apply extends_set_fs]. }
  by destruct r as [rc|]; [destruct (rc =? 0)|].
Qed.

Lemma run_child_extends cmd env :
  P (Inference cmd env) -> steps (extends P) (run_child H cmd env).
Proof.
  intros Hc s. unfold run_child.
  destruct (inference_online H env cmd (fs s)) as [r files].
  assert (extends P s (set_fs files (log (Inference cmd env) s))).
  { etrans; [by apply extends_log|apply extends_set_fs]. }
  by destruct r.
Qed.

Lemma parse_report_steps R `{!PreOrder R} out : steps R (parse_report H out).
Proof.
  unfold parse_report. destruct (csv_reader H out) as [rows broken].
  destruct (parse_rows H [] rows); [destruct broken|]; auto with steps.
Qed.

Lemma get_gpus_extends :
  (forall cmd, P (Probe cmd)) -> (forall m, P (Print m)) ->
  steps (extends P) (get_gpus_from_nvidia_smi H).
Proof.
  intros Hp Hm. unfold get_gpus_from_nvidia_smi.
  apply steps_try_except; [apply _| |].
  - apply steps_bind; [apply _|by apply run_probe_extends|].
    intros out. apply parse_report_steps, _.
  - intros e. apply steps_bind; [apply _|by apply print_extends|].
    intros _. apply steps_ret, _.
Qed.

Lemma get_gpus_same_files : steps same_files (get_gpus_from_nvidia_smi H).
Proof.
  unfold get_gpus_from_nvidia_smi.
  apply steps_try_except; [apply _| |].
  - apply steps_bind; [apply _|apply run_probe_same_files|].
    intros out. apply parse_report_steps, _.
  - intros e. apply steps_bind; [apply _|apply print_same_files|].
    intros _. apply steps_ret, _.
Qed.

Lemma print_gpus_extends gpus :
  (forall m, P (Print m)) -> steps (extends P) (print_gpus gpus).
Proof.
  intros Hm. induction gpus as [|g rest IH]; simpl.
  - apply steps_ret, _.
  - apply steps_bind; [apply _|by apply print_extends|done].
Qed.

Lemma print_gpus_same_files gpus : steps same_files (print_gpus gpus).
Proof.
  induction gpus as [|g rest IH]; simpl.
  - apply steps_ret, _.
  - apply steps_bind; [apply _|apply print_same_files|done].
Qed.

Lemma prompt_loop_extends gpus lines :
  P Input -> (forall m, P (Print m)) ->
  steps (extends P) (prompt_loop H gpus lines).
Proof.
  intros Hi Hm. induction lines as [|line rest IH]; intros s; simpl.
  - etrans; [by apply extends_log|apply extends_set_stdin].
  - assert (extends P s (set_stdin rest (log Input s))) as Hs.
    { etrans; [by apply extends_log|apply extends_set_stdin]. }
    destruct (py_int H line) as [idx|]; [destruct (find_gpu idx gpus)|].
    + done.
    + etrans; [exact Hs|]. etrans; [|apply IH]. by apply extends_log.
    + etrans; [exact Hs|]. etrans; [|apply IH]. by apply extends_log.
Qed.

Lemma prompt_loop_same_files gpus lines :
  steps same_files (prompt_loop H gpus lines).
Proof.
  induction lines as [|line rest IH]; intros s; simpl; [done|].
  destruct (py_int H line) as [idx|]; [destruct (find_gpu idx gpus)|].
  - done.
  - etrans; [|apply IH]. done.
  - etrans; [|apply IH]. done.
Qed.

Lemma select_interactive_extends gpus :
  P Input -> (forall m, P (Print m)) ->
  steps (extends P) (select_interactive H gpus).
Proof.
  intros Hi Hm. unfold select_interactive.
  repeat (apply steps_bind; [apply _| |intros _]);
    try (by apply print_extends); try (by apply print_gpus_extends).
  assert (steps (extends P) (fun s => prompt_loop H gpus (stdin s) s)).
  { intros s. by apply prompt_loop_extends. }
  destruct gpus as [|g [|g' rest]]; try done.
  apply steps_bind; [apply _|by apply print_extends|].
  intros _. apply steps_ret, _.
Qed.

Lemma select_interactive_same_files gpus :
  steps same_files (select_interactive H gpus).
Proof.
  unfold select_interactive.
  repeat (apply steps_bind; [apply _| |intros _]);
    try apply print_same_files; try apply print_gpus_same_files.
  assert (steps same_files (fun s => prompt_loop H gpus (stdin s) s)).
  { intros s. apply prompt_loop_same_files. }
  destruct gpus as [|g [|g' rest]]; done.
Qed.

Lemma select_gpu_extends a gpus :
  P Input -> (forall m, P (Print m)) ->
  steps (extends P) (select_gpu H a gpus).
Proof.
  intros Hi Hm. unfold select_gpu.
  destruct (gpu_arg a) as [i|]; [destruct (find_gpu i gpus)|].
  - apply steps_ret, _.
  - apply steps_bind; [apply _|by apply print_extends|].
    intros _. apply steps_ret, _.
  - apply steps_bind; [apply _|by apply select_interactive_extends|].
    intros g. apply steps_ret, _.
Qed.

Lemma select_gpu_same_files a gpus : steps same_files (select_gpu H a gpus).
Proof.
  unfold select_gpu.
  destruct (gpu_arg a) as [i|]; [destruct (find_gpu i gpus)|].
  - apply steps_ret, _.
  - apply steps_bind; [apply _|apply print_same_files|].
    intros _. apply steps_ret, _.
  - apply steps_bind; [apply _|apply select_interactive_same_files|].
    intros g. apply steps_ret, _.
Qed.

Lemma choose_gpu_extends a :
  P Input -> (forall cmd, P (Probe cmd)) -> (forall m, P (Print m)) ->
  steps (extends P) (choose_gpu H a).
Proof.
  intros Hi Hp Hm. unfold choose_gpu.
  apply steps_bind; [apply _|by apply get_gpus_extends|].
  intros [|g gpus].
  - apply steps_bind; [apply _|by apply print_extends|].
    intros _. apply steps_ret, _.
  - apply steps_bind; [apply _|by apply select_gpu_extends|].
    intros [sel|]; [|apply steps_ret, _].
    apply steps_bind; [apply _|by apply print_extends|].
    intros _. apply steps_ret, _.
Qed.

Lemma choose_gpu_same_files a : steps same_files (choose_gpu H a).
Proof.
  unfold choose_gpu.
  apply steps_bind; [apply _|apply get_gpus_same_files|].
  intros [|g gpus].
  - apply steps_bind; [apply _|apply print_same_files|].
    intros _. apply steps_ret, _.
  - apply steps_bind; [apply _|apply select_gpu_same_files|].
    intros [sel|]; [|apply steps_ret, _].
    apply steps_bind; [apply _|apply print_same_files|].
    intros _. apply steps_ret, _.
Qed.

Lemma manage_engine_extends g :
  (forall m, P (Print m)) -> (forall src dst, P (Copy2 src dst)) ->
  P (Build [sys_executable H; BUILD_SCRIPT] (device_env H (index g))) ->
  steps (extends P) (manage_engine H g).
Proof.
  intros Hm Hc Hb. unfold manage_engine.
  apply steps_bind; [apply _|apply steps_os_path_exists, _|].
  intros [|].
  - repeat (apply steps_bind; [apply _| |intros _]);
      try (by apply print_extends); try (by apply shutil_copy2_extends).
    apply steps_ret, _.
  - repeat (apply steps_bind; [apply _|by apply print_extends|intros _]).
    apply steps_bind; [apply _| |].
    + apply steps_try_except; [apply _| |].
      * apply steps_bind; [apply _|by apply run_build_extends|].
        intros _. apply steps_ret, _.
      * intros e. apply steps_bind; [apply _|by apply print_extends|].
        intros _. apply steps_ret, _.
    + intros [|]; [|apply steps_ret, _].
      apply steps_bind; [apply _|apply steps_os_path_exists, _|].
      intros [|].
      * repeat (apply steps_bind; [apply _| |intros _]);
          try (by apply print_extends); try (by apply shutil_copy2_extends).
        apply steps_ret, _.
      * apply steps_bind; [apply _|by apply print_extends|].
        intros _. apply steps_ret, _.
Qed.

Lemma run_inference_extends i extra_args :
  (forall m, P (Print m)) ->
  P (Inference ([sys_executable H; INFERENCE_SCRIPT] ++ extra_args)
       (device_env H i)) ->
  steps (extends P) (run_inference H i extra_args).
Proof.
  intros Hm Hi. unfold run_inference.
  apply steps_bind; [apply _|by apply print_extends|]. intros _.
  apply steps_try_except; [apply _|by apply run_child_extends|].
  intros e. apply steps_ret, _.
Qed.

End Footprints.

(** ** The engine cache manager, path by path *)

Lemma cached_engine_path_eq g :
  cached_engine_path g =
  str "./pretrained_weights/tensorrt/unet_work_"
    ++ get_sanitized_name (name g) ++ str ".engine".
Proof. reflexivity. Qed.

(** The cache file of a device is never the active engine file. *)
Lemma cached_engine_path_not_active g :
  cached_engine_path g <> active_engine_path.
Proof.
  rewrite cached_engine_path_eq. intros E. vm_compute in E. discriminate E.
Qed.

(** Devices with the same sanitized name share one cache file. *)
Lemma cached_engine_path_same_key g g' :
  get_sanitized_name (name g') = get_sanitized_name (name g) ->
  cached_engine_path g' = cached_engine_path g.
Proof.
  intros E. unfold cached_engine_path, cached_engine_filename. by rewrite E.
Qed.

(** Cache hit (lines 55-59): two messages and one copy. *)
Lemma manage_engine_hit H g s c :
  fs s !! cached_engine_path g = Some c ->
  manage_engine H g s =
  (Ok true,
   log (Copy2 (cached_engine_path g) active_engine_path)
     (set_fs (<[active_engine_path := c]> (fs s))
        (log (Print (MsgRestoring (cached_engine_filename g)))
           (log (Print (MsgFoundCached (name g))) s)))).
Proof.
  intros Hc. unfold manage_engine, bind, os_path_exists.
  rewrite bool_decide_true by eauto.
  unfold print, shutil_copy2, ret. simpl. by rewrite Hc.
Qed.

(** Cache miss (lines 61-84), by the outcome of the build. *)
Lemma manage_engine_miss H g s :
  fs s !! cached_engine_path g = None ->
  manage_engine H g s =
  match torch2trt H (device_env H (index g)) (fs s) with
  | (Exited rc, files) =>
      let s1 := after_build H g files s in
      if rc =? 0 then
        match files !! active_engine_path with
        | Some c =>
            (Ok true,
             log (Copy2 active_engine_path (cached_engine_path g))
               (set_fs (<[cached_engine_path g := c]> files)
                  (log (Print (MsgCaching (cached_engine_filename g))) s1)))
        | None => (Ok false, log (Print MsgBuildOutputMissing) s1)
        end
      else (Ok false, log (Print MsgCompilationFailed) s1)
  | (Interrupted, files) => (Raise KeyboardInterrupt, after_build H g files s)
  end.
Proof.
  intros Hc. unfold manage_engine, bind at 1, os_path_exists.
  rewrite bool_decide_false by (rewrite Hc; by intros [? ?]).
  unfold bind, print, try_except, run_build, shutil_copy2, ret,
    os_path_exists, after_build.
  simpl.
  destruct (torch2trt H (device_env H (index g)) (fs s)) as [[rc|] files];
    [|done].
  destruct (rc =? 0); simpl; [|done].
  destruct (files !! active_engine_path) as [c|] eqn:Ha; simpl.
  - by rewrite Ha.
  - done.
Qed.

(** The terminal state FAILED, by its two causes: the build exits with a
    non-zero code, or it exits with 0 and the active engine is absent. *)
Lemma manage_engine_failed_iff H g s :
  (manage_engine H g s).1 = Ok false <->
  fs s !! cached_engine_path g = None /\
  exists rc files,
    torch2trt H (device_env H (index g)) (fs s) = (Exited rc, files) /\
    (rc <> 0 \/ files !! active_engine_path = None).
Proof.
  destruct (fs s !! cached_engine_path g) as [c|] eqn:Hc.
  { rewrite (manage_engine_hit H g s c Hc). simpl. split; [done|].
    by intros [? _]. }
  rewrite (manage_engine_miss H g s Hc).
  destruct (torch2trt H (device_env H (index g)) (fs s)) as [[rc|] files].
  - destruct (Z.eqb_spec rc 0) as [->|Hrc]; simpl.
    + destruct (files !! active_engine_path) as [c|] eqn:Ha; simpl.
      * split; [done|]. intros (_ & rc & files' & E & [?|?]); simplify_eq.
      * split; [|done]. intros _. split; [done|].
        exists 0, files. auto.
    + split; [|done]. intros _. split; [done|]. exists rc, files. auto.
  - simpl. split; [done|]. intros (_ & rc & files' & E & _). done.
Qed.

(** The two parts of [main] after the device is chosen. *)
Lemma main_unfold H a s :
  main H a s =
  match choose_gpu H a s with
  | (Ok (Some g), s1) =>
      match manage_engine H g s1 with
      | (Ok true, s2) => run_inference H (index g) (pass_args a) s2
      | (Ok false, s2) => (Raise (SystemExit 1), s2)
      | (Raise e, s2) => (Raise e, s2)
      end
  | (Ok None, s1) => (Ok tt, s1)
  | (Raise e, s1) => (Raise e, s1)
  end.
Proof.
  unfold main, bind. destruct (choose_gpu H a s) as [[[g|]|e] s1]; try done.
  by destruct (manage_engine H g s1) as [[[|]|e] s2].
Qed.

(** [run_inference] returns whatever the child does. *)
Lemma run_inference_returns H i extra_args s :
  (run_inference H i extra_args s).1 = Ok tt.
Proof.
  unfold run_inference, bind, print, try_except, run_child. simpl.
  destruct (inference_online _ _ _ _) as [[rc|] files]; done.
Qed.

(** ** The probe against its contract *)

Lemma parse_rows_parsed_devices H rows gpus :
  parse_rows H gpus rows =
  match parsed_devices H rows with
  | Some found => Ok (gpus ++ found)
  | None => Raise ValueError
  end.
Proof.
  unfold parsed_devices. revert gpus.
  induction rows as [|row rest IH]; intros gpus; simpl.
  { by rewrite app_nil_r. }
  destruct row as [|f0 [|f1 [|f2 more]]].
  1-3: rewrite filter_cons_False by (simpl; lia); apply IH.
  rewrite filter_cons_True by (simpl; lia). simpl.
  destruct (py_int H (py_strip H f0)) as [i|]; simpl; [|done].
  rewrite IH. destruct (mapM _ _) as [found|]; simpl; [|done].
  by rewrite <- app_assoc.
Qed.

Lemma get_gpus_unfold H s :
  get_gpus_from_nvidia_smi H s =
  match probe_success H with
  | Some gpus => (Ok gpus, log (Probe probe_cmd) s)
  | None =>
      (Ok [],
       log (Print (MsgQueryFailed
              match nvidia_smi H with
              | ToolMissing => FileNotFoundError
              | Listed 0 out =>
                  match parsed_devices H (csv_reader H out).1 with
                  | Some _ => CsvError
                  | None => ValueError
                  end
              | Listed rc _ => CalledProcessError rc
              end))
         (log (Probe probe_cmd) s))
  end.
Proof.
  unfold get_gpus_from_nvidia_smi, probe_success, try_except, bind, run_probe.
  fold probe_cmd.
  destruct (nvidia_smi H) as [|rc out]; [done|].
  destruct rc as [|p|p]; simpl; try done.
  unfold parse_report. destruct (csv_reader H out) as [rows broken]. simpl.
  rewrite parse_rows_parsed_devices.
  by destruct (parsed_devices H rows) as [found|], broken.
Qed.

(** After a successful [manage_engine], the active file and the cache
    file of the device hold the same bytes. *)
Lemma manage_engine_true_same_content H g s s' :
  manage_engine H g s = (Ok true, s') ->
  exists c,
    fs s' !! active_engine_path = Some c /\
    fs s' !! cached_engine_path g = Some c.
Proof.
  intros E. pose proof (cached_engine_path_not_active g) as Hne.
  destruct (fs s !! cached_engine_path g) as [c|] eqn:Hc.
  - rewrite (manage_engine_hit H g s c Hc) in E. injection E as <-.
    exists c. simpl. rewrite lookup_insert_eq.
    by rewrite lookup_insert_ne.
  - rewrite (manage_engine_miss H g s Hc) in E.
    destruct (torch2trt H _ _) as [[rc|] files]; [|done].
    destruct (rc =? 0); [|done]. simpl in E.
    destruct (files !! active_engine_path) as [c|] eqn:Ha; [|done].
    injection E as <-. exists c. simpl. rewrite lookup_insert_eq.
    by rewrite lookup_insert_ne.
Qed.

(** What a cache hit returns and adds to the trace. *)
Lemma manage_engine_hit_trace H g s c :
  fs s !! cached_engine_path g = Some c ->
  (manage_engine H g s).1 = Ok true /\
  trace (manage_engine H g s).2 =
    trace s ++ [Print (MsgFoundCached (name g));
                Print (MsgRestoring (cached_engine_filename g));
                Copy2 (cached_engine_path g) active_engine_path] /\
  extends no_build s (manage_engine H g s).2.
Proof.
  intros Hc. rewrite (manage_engine_hit H g s c Hc). simpl.
  assert (((trace s ++ [Print (MsgFoundCached (name g))])
             ++ [Print (MsgRestoring (cached_engine_filename g))])
            ++ [Copy2 (cached_engine_path g) active_engine_path]
          = trace s ++ [Print (MsgFoundCached (name g));
                        Print (MsgRestoring (cached_engine_filename g));
                        Copy2 (cached_engine_path g) active_engine_path])
    as Ht.
  { by rewrite <- !app_assoc. }
  split; [done|]. split; [done|].
  eexists. split; [exact Ht|]. by repeat constructor.
Qed.

(** ** The whole run *)

Lemma engine_then_launch_extends H (P : event -> Prop) a g :
  (forall m, P (Print m)) -> (forall src dst, P (Copy2 src dst)) ->
  P (Build [sys_executable H; BUILD_SCRIPT] (device_env H (index g))) ->
  P (Inference ([sys_executable H; INFERENCE_SCRIPT] ++ pass_args a)
       (device_env H (index g))) ->
  steps (extends P)
    (let! ok := manage_engine H g in
     if negb ok then sys_exit 1
     else run_inference H (index g) (pass_args a)).
Proof.
  intros Hm Hc Hb Hi.
  apply steps_bind; [apply _|by apply manage_engine_extends|].
  intros [|]; simpl.
  - by apply run_inference_extends.
  - apply steps_raise, _.
Qed.

Lemma main_extends H (P : event -> Prop) a :
  P Input -> (forall cmd, P (Probe cmd)) -> (forall m, P (Print m)) ->
  (forall src dst, P (Copy2 src dst)) ->
  (forall g, P (Build [sys_executable H; BUILD_SCRIPT]
                  (device_env H (index g)))) ->
  (forall g, P (Inference
                  ([sys_executable H; INFERENCE_SCRIPT] ++ pass_args a)
                  (device_env H (index g)))) ->
  steps (extends P) (main H a).
Proof.
  intros Hin Hp Hm Hc Hb Hi. unfold main.
  apply steps_bind; [apply _|by apply choose_gpu_extends|].
  intros [g|]; [|apply steps_ret, _].
  by apply engine_then_launch_extends.
Qed.

(** A run in which a device was chosen continues from the state the
    choice left. *)
Lemma run_chosen H a files lines g s1 :
  choose_gpu H a (initial files lines) = (Ok (Some g), s1) ->
  run H a files lines =
  (let! ok := manage_engine H g in
   if negb ok then sys_exit 1
   else run_inference H (index g) (pass_args a)) s1.
Proof. intros E. unfold run, main, bind at 1. by rewrite E. Qed.

Lemma filter_eq_not_elem_of {A} `{EqDecision A} (x : A) (l : list A) :
  x ∉ l -> filter (fun y => y = x) l = [].
Proof.
  induction l as [|y l IH]; [done|]. intros Hx.
  apply not_elem_of_cons in Hx as [Hne Hx].
  rewrite filter_cons_False by congruence. by apply IH.
Qed.

(** On a cache miss the build child is started, with the environment of
    the device. *)
Lemma manage_engine_miss_build_event H g s :
  fs s !! cached_engine_path g = None ->
  Build [sys_executable H; BUILD_SCRIPT] (device_env H (index g))
    ∈ trace (manage_engine H g s).2.
Proof.
  intros Hc. rewrite (manage_engine_miss H g s Hc).
  assert (forall files,
            Build [sys_executable H; BUILD_SCRIPT] (device_env H (index g))
              ∈ trace (after_build H g files s)) as Hb.
  { intros files. unfold after_build. simpl.
    apply elem_of_app. right. by left. }
  destruct (torch2trt H _ _) as [[rc|] files]; specialize (Hb files);
    [|exact Hb].
  destruct (rc =? 0); [destruct (files !! active_engine_path)|];
    cbn [snd trace log set_fs]; rewrite ?elem_of_app; tauto.
Qed.

(** The inference child is the last thing [run_inference] does. *)
Lemma run_inference_last_event H i extra_args s :
  last (trace (run_inference H i extra_args s).2) =
  Some (Inference ([sys_executable H; INFERENCE_SCRIPT] ++ extra_args)
          (device_env H i)).
Proof.
  unfold run_inference, bind, print, try_except, run_child. simpl.
  destruct (inference_online _ _ _ _) as [[rc|] files]; simpl;
    apply last_snoc.
Qed.

(** What [manage_engine] logged stays in the trace of the run. *)
Lemma run_keeps_engine_events H a files lines g s1 e :
  choose_gpu H a (initial files lines) = (Ok (Some g), s1) ->
  e ∈ trace (manage_engine H g s1).2 ->
  e ∈ trace (run H a files lines).2.
Proof.
  intros E He. unfold run. rewrite main_unfold, E.
  destruct (manage_engine H g s1) as [[[|]|x] s2]; simpl in *; try done.
  pose proof (run_inference_extends H (fun _ => True) (index g) (pass_args a)
                (fun _ => I) I s2) as (evs & -> & _).
  apply elem_of_app. by left.
Qed.

(** ** Properties of the specification *)

(** C9.  The name sanitization is a function of the name alone: equal
    names give equal results; every character of the result is in
    [[A-Za-z0-9_]]; the result is as long as the name; and
    ["RTX 3090"] becomes ["RTX_3090"]. *)
Theorem get_sanitized_name_safe (name : pystr) :
  (forall name', name' = name ->
     get_sanitized_name name' = get_sanitized_name name) /\
  Forall (fun c => is_word_char c = true) (get_sanitized_name name) /\
  length (get_sanitized_name name) = length name /\
  get_sanitized_name (str "RTX 3090") = str "RTX_3090".
Proof.
  split; [by intros ? ->|]. split; [|split; [|done]].
  - unfold get_sanitized_name. apply Forall_fmap, Forall_forall.
    intros c _. simpl. unfold is_word_char.
    destruct (is_alnum c) eqn:E; [by rewrite E|done].
  - unfold get_sanitized_name. apply length_fmap.
Qed.

Lemma get_sanitized_name_safe_witness :
  get_sanitized_name (str "RTX 3090") = get_sanitized_name (str "RTX 3090").
Proof.
  apply (proj1 (get_sanitized_name_safe (str "RTX 3090")) (str "RTX 3090")).
  reflexivity.
Defined.

(** C5.  The argument list handed to the inference process: when the
    caller's list has the element ["--acceleration"] it is that list
    unchanged; otherwise it is that list followed by ["--acceleration"]
    and ["tensorrt"], where the flag then occurs exactly once.  Every
    inference child of a run is started with the interpreter, the
    inference script and that list. *)
Theorem acceleration_flag_injected H a files lines :
  (str "--acceleration" ∈ inference_args a ->
     pass_args a = inference_args a) /\
  (str "--acceleration" ∉ inference_args a ->
     pass_args a =
       inference_args a ++ [str "--acceleration"; str "tensorrt"] /\
     length (filter (fun x => x = str "--acceleration") (pass_args a)) = 1%nat)
  /\
  Forall (forwards H (pass_args a)) (trace (run H a files lines).2).
Proof.
  split; [|split].
  - intros Hin. unfold pass_args. by rewrite bool_decide_true.
  - intros Hnot. unfold pass_args. rewrite bool_decide_false by done.
    split; [done|]. rewrite filter_app, length_app.
    by rewrite filter_eq_not_elem_of.
  - apply (extends_initial _ files lines). unfold run.
    by apply main_extends.
Qed.

Lemma acceleration_flag_injected_witness :
  pass_args {| gpu_arg := Some 1;
               inference_args := [str "--port"; str "7860"] |} =
  [str "--port"; str "7860"; str "--acceleration"; str "tensorrt"].
Proof.
  refine (proj1 (proj1 (proj2 (acceleration_flag_injected Demo.two_gpu_host
            {| gpu_arg := Some 1;
               inference_args := [str "--port"; str "7860"] |} ∅ [])) _)).
  vm_compute. intros Hin. apply list_elem_of_In in Hin. simpl in Hin.
  repeat (destruct Hin as [Hin|Hin]; [discriminate Hin|]). exact Hin.
Defined.

(** C2.  Whenever [manage_engine] returns [True], by the restore path or
    by the build-and-persist path, the active engine file and the cache
    file named for the device's sanitized name both exist and have the
    same content. *)
Theorem manage_engine_active_matches_cache H g s s' :
  manage_engine H g s = (Ok true, s') ->
  exists c,
    fs s' !! active_engine_path = Some c /\
    fs s' !! cached_engine_path g = Some c.
Proof. apply manage_engine_true_same_content. Qed.

Lemma manage_engine_active_matches_cache_witness :
  exists c,
    fs (manage_engine Demo.two_gpu_host Demo.H100 (initial ∅ [])).2
      !! active_engine_path = Some c /\
    fs (manage_engine Demo.two_gpu_host Demo.H100 (initial ∅ [])).2
      !! cached_engine_path Demo.H100 = Some c.
Proof.
  apply (manage_engine_active_matches_cache Demo.two_gpu_host Demo.H100
           (initial ∅ [])).
  vm_compute. reflexivity.
Defined.

(** C3.  When the cache file of the device exists, [manage_engine]
    returns [True] without starting the build: the trace grows by the two
    messages and the copy only, the active file gets the bytes of the cache
    file, and no other file changes, the cache file included. *)
Theorem cache_hit_restores_without_build H g s c :
  fs s !! cached_engine_path g = Some c ->
  (manage_engine H g s).1 = Ok true /\
  extends no_build s (manage_engine H g s).2 /\
  trace (manage_engine H g s).2 =
    trace s ++ [Print (MsgFoundCached (name g));
                Print (MsgRestoring (cached_engine_filename g));
                Copy2 (cached_engine_path g) active_engine_path] /\
  fs (manage_engine H g s).2 = <[active_engine_path := c]> (fs s) /\
  fs (manage_engine H g s).2 !! active_engine_path = Some c /\
  fs (manage_engine H g s).2 !! cached_engine_path g = Some c.
Proof.
  intros Hc.
  destruct (manage_engine_hit_trace H g s c Hc) as (Hr & Ht & Hb).
  split; [done|]. split; [done|]. split; [done|].
  rewrite (manage_engine_hit H g s c Hc). simpl.
  split; [done|]. split; [apply lookup_insert_eq|].
  rewrite lookup_insert_ne; [done|].
  intros E. by apply (cached_engine_path_not_active g).
Qed.

Lemma cache_hit_restores_without_build_witness :
  fs (manage_engine Demo.two_gpu_host Demo.A100
        (initial {[ cached_engine_path Demo.A100 := Demo.engine ]} [])).2
    !! active_engine_path = Some Demo.engine.
Proof.
  apply (cache_hit_restores_without_build Demo.two_gpu_host Demo.A100
           (initial {[ cached_engine_path Demo.A100 := Demo.engine ]} [])
           Demo.engine).
  vm_compute. reflexivity.
Defined.

(** C7.  Round trip: when [manage_engine] finds no cache file, builds and
    returns [True], the cache file exists afterwards, and the next
    [manage_engine] for a device with the same sanitized name, on any host,
    returns [True] by the restore path: its trace is the two messages and
    the copy, with no build. *)
Theorem build_then_cache_hit H H' g g' s s1 :
  fs s !! cached_engine_path g = None ->
  manage_engine H g s = (Ok true, s1) ->
  get_sanitized_name (name g') = get_sanitized_name (name g) ->
  exists c,
    fs s1 !! cached_engine_path g' = Some c /\
    (manage_engine H' g' s1).1 = Ok true /\
    trace (manage_engine H' g' s1).2 =
      trace s1 ++ [Print (MsgFoundCached (name g'));
                   Print (MsgRestoring (cached_engine_filename g'));
                   Copy2 (cached_engine_path g') active_engine_path] /\
    extends no_build s1 (manage_engine H' g' s1).2.
Proof.
  intros Hmiss E Hkey.
  destruct (manage_engine_true_same_content H g s s1 E) as (c & _ & Hc).
  rewrite <- (cached_engine_path_same_key g g' Hkey) in Hc.
  exists c. split; [done|].
  by apply manage_engine_hit_trace with c.
Qed.

Lemma build_then_cache_hit_witness :
  exists c,
    fs (manage_engine Demo.two_gpu_host Demo.H100 (initial ∅ [])).2
      !! cached_engine_path Demo.H100 = Some c /\
    (manage_engine (Demo.host_with ToolMissing (Demo.build_idle 1) Interrupted)
       Demo.H100
       (manage_engine Demo.two_gpu_host Demo.H100 (initial ∅ [])).2).1
    = Ok true.
Proof.
  destruct (build_then_cache_hit Demo.two_gpu_host
              (Demo.host_with ToolMissing (Demo.build_idle 1) Interrupted)
              Demo.H100 Demo.H100 (initial ∅ [])
              (manage_engine Demo.two_gpu_host Demo.H100 (initial ∅ [])).2)
    as (c & Hc & Hr & _).
  - vm_compute. reflexivity.
  - vm_compute. reflexivity.
  - reflexivity.
  - exists c. split; [exact Hc|exact Hr].
Defined.

(** C8.  The probe never raises.  When the listing command exists, exits
    with 0 and its output parses, the probe returns the devices of the rows
    with at least three fields, in order; in every other case (tool
    missing, non-zero exit, output that does not parse) it prints the
    warning and returns the empty list. *)
Theorem get_gpus_never_raises H s :
  (exists gpus s', get_gpus_from_nvidia_smi H s = (Ok gpus, s')) /\
  match probe_success H with
  | Some gpus =>
      get_gpus_from_nvidia_smi H s = (Ok gpus, log (Probe probe_cmd) s)
  | None =>
      exists e,
        is_Exception e = true /\
        get_gpus_from_nvidia_smi H s =
          (Ok [], log (Print (MsgQueryFailed e)) (log (Probe probe_cmd) s))
  end.
Proof.
  rewrite get_gpus_unfold.
  destruct (probe_success H) as [gpus|]; [by eauto|].
  split; [by eauto|]. eexists. split; [|reflexivity].
  destruct (nvidia_smi H) as [|[|p|p] out]; try done.
  by destruct (parsed_devices _ _).
Qed.

(** C6.  The environment of the build child and of the inference child is
    [os.environ] with [CUDA_VISIBLE_DEVICES] set to [str] of the index of
    the device they are started for: for [manage_engine] and
    [run_inference] on their own, and for every child of a run in which a
    device was selected, whatever the probe listed.  The children are
    really started with it: on a cache miss [manage_engine] starts the
    build under that environment, [run_inference] always starts inference
    under it, and so does the run for the selected device. *)
Theorem children_see_selected_device H :
  (forall i, device_env H i !! CUDA_VISIBLE_DEVICES = Some (py_str i)) /\
  (forall g s, extends (bound_to H (index g)) s (manage_engine H g s).2) /\
  (forall i extra_args s,
     extends (bound_to H i) s (run_inference H i extra_args s).2) /\
  (forall a files lines g s1,
     choose_gpu H a (initial files lines) = (Ok (Some g), s1) ->
     Forall (bound_to H (index g)) (trace (run H a files lines).2)) /\
  (forall g s,
     fs s !! cached_engine_path g = None ->
     Build [sys_executable H; BUILD_SCRIPT] (device_env H (index g))
       ∈ trace (manage_engine H g s).2) /\
  (forall i extra_args s,
     last (trace (run_inference H i extra_args s).2) =
       Some (Inference ([sys_executable H; INFERENCE_SCRIPT] ++ extra_args)
               (device_env H i))) /\
  (forall a files lines g s1,
     choose_gpu H a (initial files lines) = (Ok (Some g), s1) ->
     (files !! cached_engine_path g = None ->
        Build [sys_executable H; BUILD_SCRIPT] (device_env H (index g))
          ∈ trace (run H a files lines).2) /\
     ((manage_engine H g s1).1 = Ok true ->
        last (trace (run H a files lines).2) =
          Some (Inference
                  ([sys_executable H; INFERENCE_SCRIPT] ++ pass_args a)
                  (device_env H (index g))))).
Proof.
  split; [|split; [|split; [|split; [|split; [|split]]]]].
  - intros i. apply lookup_insert_eq.
  - intros g s. by apply manage_engine_extends.
  - intros i extra_args s. by apply run_inference_extends.
  - intros a files lines g s1 E.
    apply (extends_initial _ files lines).
    rewrite (run_chosen H a files lines g s1 E).
    etrans.
    + pose proof (choose_gpu_extends H (bound_to H (index g)) a
                    I (fun _ => I) (fun _ => I) (initial files lines)) as Hc.
      rewrite E in Hc. exact Hc.
    + by apply engine_then_launch_extends.
  - apply manage_engine_miss_build_event.
  - apply run_inference_last_event.
  - intros a files lines g s1 E. split.
    + intros Hmiss. apply (run_keeps_engine_events H a files lines g s1 _ E).
      apply manage_engine_miss_build_event.
      pose proof (choose_gpu_same_files H a (initial files lines)) as Hf.
      rewrite E in Hf. simpl in Hf. unfold same_files in Hf. simpl in Hf.
      by rewrite Hf.
    + intros Hok. unfold run. rewrite main_unfold, E.
      destruct (manage_engine H g s1) as [[[|]|x] s2]; simpl in Hok;
        try done.
      apply run_inference_last_event.
Qed.

Lemma children_see_selected_device_witness :
  Forall (bound_to Demo.two_gpu_host 1)
    (trace (run Demo.two_gpu_host
              {| gpu_arg := Some 1; inference_args := [] |} ∅ []).2) /\
  Build [sys_executable Demo.two_gpu_host; BUILD_SCRIPT]
    (device_env Demo.two_gpu_host 1)
    ∈ trace (run Demo.two_gpu_host
               {| gpu_arg := Some 1; inference_args := [] |} ∅ []).2 /\
  last (trace (run Demo.two_gpu_host
                 {| gpu_arg := Some 1; inference_args := [] |} ∅ []).2) =
    Some (Inference
            ([sys_executable Demo.two_gpu_host; INFERENCE_SCRIPT]
               ++ pass_args {| gpu_arg := Some 1; inference_args := [] |})
            (device_env Demo.two_gpu_host 1)).
Proof.
  pose proof (children_see_selected_device Demo.two_gpu_host)
    as (_ & _ & _ & Hall & _ & _ & Hrun).
  assert (choose_gpu Demo.two_gpu_host
            {| gpu_arg := Some 1; inference_args := [] |} (initial ∅ [])
          = (Ok (Some Demo.H100),
             (choose_gpu Demo.two_gpu_host
                {| gpu_arg := Some 1; inference_args := [] |}
                (initial ∅ [])).2)) as E.
  { vm_compute. reflexivity. }
  split; [exact (Hall _ _ _ _ _ E)|].
  destruct (Hrun _ _ _ _ _ E) as [Hb Hi]. split.
  - apply Hb. reflexivity.
  - apply Hi. vm_compute. reflexivity.
Defined.

(** C4.  When [manage_engine] returns [False] for the selected device (the
    build exited with a non-zero code, or exited with 0 and left no active
    engine), the run ends by [sys.exit(1)]: the exit status is not 0 and no
    inference child was started. *)
Theorem failed_engine_aborts_run H a files lines g s1 :
  choose_gpu H a (initial files lines) = (Ok (Some g), s1) ->
  (manage_engine H g s1).1 = Ok false ->
  (run H a files lines).1 = Raise (SystemExit 1) /\
  exit_status (run H a files lines).1 <> 0 /\
  Forall no_inference (trace (run H a files lines).2).
Proof.
  intros E Hf.
  assert (extends no_inference (initial files lines) s1) as H1.
  { pose proof (choose_gpu_extends H no_inference a
                  eq_refl (fun _ => eq_refl) (fun _ => eq_refl)
                  (initial files lines)) as Hc.
    by rewrite E in Hc. }
  assert (extends no_inference s1 (manage_engine H g s1).2) as H2.
  { by apply manage_engine_extends. }
  unfold run. rewrite main_unfold, E.
  destruct (manage_engine H g s1) as [[[|]|e] s2]; simpl in *; try done.
  split; [done|]. split; [done|].
  apply (extends_initial _ files lines). by etrans.
Qed.

Lemma failed_engine_aborts_run_witness :
  exit_status
    (run (Demo.host_with Demo.two_gpus (Demo.build_idle 0) (Exited 0))
       {| gpu_arg := Some 0; inference_args := [] |} ∅ []).1 <> 0.
Proof.
  apply (failed_engine_aborts_run
           (Demo.host_with Demo.two_gpus (Demo.build_idle 0) (Exited 0))
           {| gpu_arg := Some 0; inference_args := [] |} ∅ [] Demo.A100
           (choose_gpu
              (Demo.host_with Demo.two_gpus (Demo.build_idle 0) (Exited 0))
              {| gpu_arg := Some 0; inference_args := [] |}
              (initial ∅ [])).2).
  - vm_compute. reflexivity.
  - vm_compute. reflexivity.
Defined.

(** C10.  [run_inference] returns normally whatever the inference child
    does (any exit code, or an interrupt), and the launcher does not look
    at the exit code: every run in which a device was selected and
    [manage_engine] returned [True] starts the inference child as its last
    action and ends with exit status 0. *)
Theorem inference_exit_code_ignored H a files lines g s1 s2 :
  (forall i extra_args s, (run_inference H i extra_args s).1 = Ok tt) /\
  (choose_gpu H a (initial files lines) = (Ok (Some g), s1) ->
   manage_engine H g s1 = (Ok true, s2) ->
   (run H a files lines).1 = Ok tt /\
   exit_status (run H a files lines).1 = 0 /\
   last (trace (run H a files lines).2) =
     Some (Inference ([sys_executable H; INFERENCE_SCRIPT] ++ pass_args a)
             (device_env H (index g)))).
Proof.
  split; [apply run_inference_returns|].
  intros E1 E2. unfold run. rewrite main_unfold, E1, E2.
  pose proof (run_inference_returns H (index g) (pass_args a) s2) as Hr.
  split; [done|]. split; [by rewrite Hr|].
  unfold run_inference, bind, print, try_except, run_child. simpl.
  destruct (inference_online _ _ _ _) as [[rc|] files']; simpl;
    apply last_snoc.
Qed.

Lemma inference_exit_code_ignored_witness :
  exit_status
    (run (Demo.host_with Demo.two_gpus (Demo.build_writing Demo.engine 0)
            (Exited 3))
       {| gpu_arg := Some 1; inference_args := [] |} ∅ []).1 = 0.
Proof.
  apply (proj2 (inference_exit_code_ignored
           (Demo.host_with Demo.two_gpus (Demo.build_writing Demo.engine 0)
              (Exited 3))
           {| gpu_arg := Some 1; inference_args := [] |} ∅ [] Demo.H100
           (choose_gpu
              (Demo.host_with Demo.two_gpus
                 (Demo.build_writing Demo.engine 0) (Exited 3))
              {| gpu_arg := Some 1; inference_args := [] |}
              (initial ∅ [])).2
           (manage_engine
              (Demo.host_with Demo.two_gpus
                 (Demo.build_writing Demo.engine 0) (Exited 3))
              Demo.H100
              (choose_gpu
                 (Demo.host_with Demo.two_gpus
                    (Demo.build_writing Demo.engine 0) (Exited 3))
                 {| gpu_arg := Some 1; inference_args := [] |}
                 (initial ∅ [])).2).2)).
  - vm_compute. reflexivity.
  - vm_compute. reflexivity.
Defined.

Lemma find_gpu_none i gpus :
  (forall g, g ∈ gpus -> index g <> i) -> find_gpu i gpus = None.
Proof.
  intros Hno. unfold find_gpu. induction gpus as [|g rest IH]; [done|].
  simpl. destruct (Z.eqb_spec (index g) i) as [E|_].
  - exfalso. apply (Hno g); [by left|done].
  - apply IH. intros g' Hg'. apply Hno. by right.
Qed.

(** The run for an explicit index that no probed device has: one
    diagnostic after the probe, then [main] returns. *)
Lemma run_unknown_index H a files lines i gpus s1 :
  gpu_arg a = Some i ->
  get_gpus_from_nvidia_smi H (initial files lines) = (Ok gpus, s1) ->
  (forall g, g ∈ gpus -> index g <> i) ->
  run H a files lines =
  (Ok tt,
   log (Print match gpus with
              | [] => MsgNoGpus
              | _ => MsgIndexNotFound i
              end) s1).
Proof.
  intros Ha Hg Hno. unfold run, main, choose_gpu, bind. rewrite Hg.
  destruct gpus as [|g rest]; [done|].
  unfold select_gpu. rewrite Ha, (find_gpu_none i (g :: rest) Hno). done.
Qed.

(** C1, as the code has it.  For every probed device list and every
    explicit [--gpu] index that no probed device has, [main] prints a
    diagnostic (the index error, or the no-device message when the list is
    empty) and returns: no file changes, no copy is made, no build or
    inference child is started, and the exit status is 0. *)
Theorem unknown_gpu_index_returns H a files lines i gpus s1 :
  gpu_arg a = Some i ->
  get_gpus_from_nvidia_smi H (initial files lines) = (Ok gpus, s1) ->
  (forall g, g ∈ gpus -> index g <> i) ->
  (run H a files lines).1 = Ok tt /\
  exit_status (run H a files lines).1 = 0 /\
  fs (run H a files lines).2 = files /\
  Forall no_side_effect (trace (run H a files lines).2) /\
  last (trace (run H a files lines).2) =
    Some (Print match gpus with
                | [] => MsgNoGpus
                | _ => MsgIndexNotFound i
                end).
Proof.
  intros Ha Hg Hno.
  rewrite (run_unknown_index H a files lines i gpus s1 Ha Hg Hno). simpl.
  split; [done|]. split; [done|].
  pose proof (get_gpus_same_files H (initial files lines)) as Hf.
  pose proof (get_gpus_extends H no_side_effect
                (fun _ => conj eq_refl (conj eq_refl eq_refl))
                (fun _ => conj eq_refl (conj eq_refl eq_refl))
                (initial files lines)) as Ht.
  rewrite Hg in Hf, Ht. simpl in Hf, Ht.
  split; [exact Hf|]. split; [|apply last_snoc].
  apply Forall_app. split; [by apply (extends_initial _ files lines)|].
  by repeat constructor.
Qed.

Lemma unknown_gpu_index_returns_witness :
  last (trace (run Demo.two_gpu_host
                 {| gpu_arg := Some 5; inference_args := [] |} ∅ []).2) =
  Some (Print (MsgIndexNotFound 5)).
Proof.
  apply (unknown_gpu_index_returns Demo.two_gpu_host
           {| gpu_arg := Some 5; inference_args := [] |} ∅ [] 5
           [Demo.A100; Demo.H100]
           (get_gpus_from_nvidia_smi Demo.two_gpu_host (initial ∅ [])).2).
  - reflexivity.
  - vm_compute. reflexivity.
  - intros g Hg. apply list_elem_of_In in Hg. simpl in Hg.
    destruct Hg as [<-|[<-|[]]]; discriminate.
Defined.

(** C1, as stated, fails: with devices 0 and 1 probed and [--gpu 5], no
    device has the index, and the exit status is 0. *)
Lemma unknown_gpu_index_exit_status_zero :
  (get_gpus_from_nvidia_smi Demo.two_gpu_host (initial ∅ [])).1 =
    Ok [Demo.A100; Demo.H100] /\
  (forall g, g ∈ [Demo.A100; Demo.H100] -> index g <> 5) /\
  ~ exit_status
      (run Demo.two_gpu_host
         {| gpu_arg := Some 5; inference_args := [] |} ∅ []).1 <> 0.
Proof.
  split; [by vm_compute|]. split.
  - intros g Hg. apply list_elem_of_In in Hg. simpl in Hg.
    destruct Hg as [<-|[<-|[]]]; discriminate.
  - intros Hnz. apply Hnz. by vm_compute.
Qed.

(** ** The model at work *)

Example py_str_decimal :
  py_str 0 = str "0" /\ py_str 1 = str "1" /\ py_str 12 = str "12" /\
  py_str (-3) = str "-3".
Proof. by vm_compute. Qed.

Example cached_engine_path_H100 :
  cached_engine_path Demo.H100 =
  str "./pretrained_weights/tensorrt/unet_work_H100.engine".
Proof. by vm_compute. Qed.

(** Devices 0 and 1, [--gpu 1], no cache file: the build runs bound to
    device 1, the cache file of H100 appears, and inference is launched
    with the injected flag. *)
Example run_gpu_1_builds :
  let r := run Demo.two_gpu_host
             {| gpu_arg := Some 1; inference_args := [] |} ∅ [] in
  r.1 = Ok tt /\
  filter (fun e => is_Build e = true \/ is_Inference e = true) (trace r.2) =
    [Build [str "/usr/bin/python3"; str "torch2trt.py"]
       (device_env Demo.two_gpu_host 1);
     Inference [str "/usr/bin/python3"; str "inference_online.py";
                str "--acceleration"; str "tensorrt"]
       (device_env Demo.two_gpu_host 1)] /\
  fs r.2 !! cached_engine_path Demo.H100 = Some Demo.engine /\
  fs r.2 !! active_engine_path = Some Demo.engine.
Proof. by vm_compute. Qed.

(** No device: exit status 0, only the probe and two messages. *)
Example run_without_devices :
  let r := run (Demo.host_with ToolMissing (Demo.build_idle 0) (Exited 0))
             {| gpu_arg := None; inference_args := [] |} ∅ [] in
  exit_status r.1 = 0 /\
  trace r.2 = [Probe probe_cmd; Print (MsgQueryFailed FileNotFoundError);
               Print MsgNoGpus].
Proof. by vm_compute. Qed.

(** The prompt: a line that is no number, an index no device has, then a
    device index. *)
Example run_prompted :
  let r := run Demo.two_gpu_host
             {| gpu_arg := None; inference_args := [str "--acceleration"] |}
             {[ cached_engine_path Demo.A100 := Demo.engine ]}
             [str "x"; str "7"; str " 0 "] in
  r.1 = Ok tt /\
  List.filter (fun e => match e with
                        | Input | Print MsgEnterNumber
                        | Print MsgInvalidIndex | Inference _ _ => true
                        | _ => false
                        end)
    (trace r.2) =
    [Input; Print MsgEnterNumber; Input; Print MsgInvalidIndex; Input;
     Inference [str "/usr/bin/python3"; str "inference_online.py";
                str "--acceleration"]
       (device_env Demo.two_gpu_host 0)].
Proof. by vm_compute. Qed.

(** The prompt at end of input: [EOFError] escapes. *)
Example run_prompt_eof :
  (run Demo.two_gpu_host {| gpu_arg := None; inference_args := [] |} ∅
     [str "x"]).1 = Raise EOFError.
Proof. by vm_compute. Qed.

(** ** Further properties: the selection *)

Lemma find_gpu_some i gpus g :
  find_gpu i gpus = Some g -> g ∈ gpus /\ index g = i.
Proof.
  unfold find_gpu. intros Hf. apply find_some in Hf as [Hin Heq].
  split; [by apply list_elem_of_In|by apply Z.eqb_eq].
Qed.

(** The device found is the first one listed with that index. *)
Lemma find_gpu_first i gpus g :
  find_gpu i gpus = Some g ->
  exists before after,
    gpus = before ++ g :: after /\
    Forall (fun g' => index g' <> i) before /\ index g = i.
Proof.
  unfold find_gpu. induction gpus as [|g0 rest IH]; [done|]. simpl.
  destruct (Z.eqb_spec (index g0) i) as [E|E].
  - intros [= <-]. by exists [], rest.
  - intros Hf. destruct (IH Hf) as (before & after & -> & Hb & Hi).
    exists (g0 :: before), after. split; [done|]. split; [|done].
    by constructor.
Qed.

Lemma count_events_app p evs1 evs2 :
  count_events p (evs1 ++ evs2) = (count_events p evs1 + count_events p evs2)%nat.
Proof. unfold count_events. by rewrite List.filter_app, length_app. Qed.

Lemma count_events_none p evs :
  Forall (fun e => p e = false) evs -> count_events p evs = 0%nat.
Proof.
  unfold count_events. induction 1 as [|e evs He _ IH]; [done|].
  simpl. by rewrite He.
Qed.

(** The prompt loop, when it returns: the accepted line is the first line
    that names a listed device; every line before it was rejected; the
    lines after it are left unread. *)
Lemma prompt_loop_ok H gpus lines s g s' :
  prompt_loop H gpus lines s = (Ok g, s') ->
  exists rejected line rest,
    lines = rejected ++ line :: rest /\
    Forall (fun l => valid_choice H gpus l = None) rejected /\
    valid_choice H gpus line = Some g /\
    stdin s' = rest /\
    count_events is_Input (trace s') =
      (count_events is_Input (trace s) + S (length rejected))%nat.
Proof.
  revert s. induction lines as [|l ls IH]; intros s; simpl; [done|].
  unfold valid_choice in *.
  destruct (py_int H l) as [idx|] eqn:Hi;
    [destruct (find_gpu idx gpus) as [g0|] eqn:Hf|].
  - intros [= <- <-]. exists [], l, ls. rewrite Hi. simpl.
    rewrite count_events_app. simpl. split; [done|]. split; [done|].
    split; [done|]. split; [done|]. unfold count_events at 2. simpl. lia.
  - intros E. destruct (IH _ E) as (rej & line & rest & -> & Hr & Hv & Hs & Hc).
    exists (l :: rej), line, rest. split; [done|].
    split; [constructor; [by rewrite Hi|done]|]. split; [done|].
    split; [done|]. rewrite Hc. simpl. rewrite !count_events_app.
    unfold count_events at 2 3. simpl. lia.
  - intros E. destruct (IH _ E) as (rej & line & rest & -> & Hr & Hv & Hs & Hc).
    exists (l :: rej), line, rest. split; [done|].
    split; [constructor; [by rewrite Hi|done]|]. split; [done|].
    split; [done|]. rewrite Hc. simpl. rewrite !count_events_app.
    unfold count_events at 2 3. simpl. lia.
Qed.

(** The prompt loop, when no line names a listed device: every line is
    read and the read after the last one raises [EOFError]. *)
Lemma prompt_loop_eof H gpus lines s :
  Forall (fun l => valid_choice H gpus l = None) lines ->
  (prompt_loop H gpus lines s).1 = Raise EOFError /\
  stdin (prompt_loop H gpus lines s).2 = [] /\
  count_events is_Input (trace (prompt_loop H gpus lines s).2) =
    (count_events is_Input (trace s) + S (length lines))%nat.
Proof.
  intros Hall. revert s. induction Hall as [|l ls Hl _ IH]; intros s; simpl.
  - rewrite count_events_app. unfold count_events at 2. simpl.
    split; [done|]. split; [done|]. lia.
  - unfold valid_choice in Hl.
    destruct (py_int H l) as [idx|]; [rewrite Hl|].
    + destruct (IH (log (Print MsgInvalidIndex)
                      (set_stdin ls (log Input s)))) as (Hr & Hs & Hc).
      split; [done|]. split; [done|]. rewrite Hc. simpl.
      rewrite !count_events_app. unfold count_events at 2 3. simpl. lia.
    + destruct (IH (log (Print MsgEnterNumber)
                      (set_stdin ls (log Input s)))) as (Hr & Hs & Hc).
      split; [done|]. split; [done|]. rewrite Hc. simpl.
      rewrite !count_events_app. unfold count_events at 2 3. simpl. lia.
Qed.

(** The selection after a probe that found devices. *)
Lemma choose_gpu_probed H a gpus s :
  probe_success H = Some gpus -> gpus <> [] ->
  choose_gpu H a s =
  match select_gpu H a gpus (log (Probe probe_cmd) s) with
  | (Ok (Some g), s1) =>
      (Ok (Some g), log (Print (MsgSelected (index g) (name g))) s1)
  | (Ok None, s1) => (Ok None, s1)
  | (Raise e, s1) => (Raise e, s1)
  end.
Proof.
  intros Hp Hne. unfold choose_gpu, bind at 1.
  rewrite get_gpus_unfold, Hp. destruct gpus as [|g0 rest]; [done|].
  unfold bind. by destruct (select_gpu _ _ _ _) as [[[g|]|e] s1].
Qed.

(** The selection after a probe that found nothing. *)
Lemma choose_gpu_no_devices H a s :
  (get_gpus_from_nvidia_smi H s).1 = Ok [] ->
  choose_gpu H a s =
  (Ok None, log (Print MsgNoGpus) (get_gpus_from_nvidia_smi H s).2).
Proof.
  intros Hg. unfold choose_gpu, bind.
  destruct (get_gpus_from_nvidia_smi H s) as [r s1]. simpl in Hg.
  by rewrite Hg.
Qed.

Lemma print_gpus_run gpus s :
  print_gpus gpus s =
  (Ok tt, log_all ((fun g => Print (MsgGpuLine g)) <$> gpus) s).
Proof.
  revert s. induction gpus as [|g rest IH]; intros s; simpl.
  - unfold ret, log_all. destruct s. simpl. by rewrite app_nil_r.
  - unfold bind, print. rewrite IH. unfold log_all, log. simpl.
    by rewrite <- app_assoc.
Qed.

(** Lines 126-146 in one step: the listing, then the only device or the
    prompt. *)
Lemma select_interactive_unfold H gpus s :
  select_interactive H gpus s =
  match gpus with
  | [g] => (Ok g, log (Print (MsgAutoSelecting (name g))) (listed gpus s))
  | _ => prompt_loop H gpus (stdin s) (listed gpus s)
  end.
Proof.
  unfold select_interactive, bind, print. rewrite print_gpus_run.
  by destruct gpus as [|g [|g' rest]].
Qed.

(** Selection at the prompt: several devices and no [--gpu]. *)
Lemma choose_gpu_prompted H a gpus s :
  gpu_arg a = None -> probe_success H = Some gpus ->
  (2 <= length gpus)%nat ->
  choose_gpu H a s =
  match prompt_loop H gpus (stdin s)
          (listed gpus (log (Probe probe_cmd) s)) with
  | (Ok g, s1) =>
      (Ok (Some g), log (Print (MsgSelected (index g) (name g))) s1)
  | (Raise e, s1) => (Raise e, s1)
  end.
Proof.
  intros Ha Hp Hlen.
  destruct gpus as [|g0 [|g1 rest]]; [simpl in Hlen; lia..|].
  rewrite (choose_gpu_probed H a (g0 :: g1 :: rest)) by done.
  unfold select_gpu. rewrite Ha. unfold bind.
  rewrite select_interactive_unfold. simpl stdin.
  by destruct (prompt_loop _ _ _ _) as [[g|e] s1].
Qed.

(** X1.  The prompt loop returns the device named by the first typed line
    that is a number and the index of a listed device: every line before it
    was rejected, each read was one prompt, and the lines after it stay
    unread. *)
Theorem prompt_accepts_first_valid_line H gpus lines s g s' :
  prompt_loop H gpus lines s = (Ok g, s') ->
  g ∈ gpus /\
  exists rejected line rest,
    lines = rejected ++ line :: rest /\
    Forall (fun l => valid_choice H gpus l = None) rejected /\
    py_int H line = Some (index g) /\
    valid_choice H gpus line = Some g /\
    stdin s' = rest /\
    count_events is_Input (trace s') =
      (count_events is_Input (trace s) + S (length rejected))%nat.
Proof.
  intros E.
  destruct (prompt_loop_ok H gpus lines s g s' E)
    as (rej & line & rest & Hl & Hr & Hv & Hs & Hc).
  assert (g ∈ gpus /\ py_int H line = Some (index g)) as [Hin Hi].
  { unfold valid_choice in Hv. destruct (py_int H line) as [idx|]; [|done].
    apply find_gpu_some in Hv as [Hin <-]. done. }
  split; [done|]. by exists rej, line, rest.
Qed.

Lemma prompt_accepts_first_valid_line_witness :
  Demo.H100 ∈ [Demo.A100; Demo.H100].
Proof.
  apply (prompt_accepts_first_valid_line Demo.two_gpu_host
           [Demo.A100; Demo.H100] [str "x"; str "7"; str "1"; str "0"]
           (initial ∅ []) Demo.H100
           (prompt_loop Demo.two_gpu_host [Demo.A100; Demo.H100]
              [str "x"; str "7"; str "1"; str "0"] (initial ∅ [])).2).
  vm_compute. reflexivity.
Defined.

(** X2.  With several devices, no [--gpu] and no typed line that names a
    listed device, the run ends with the uncaught [EOFError] of [input]:
    exit status 1, one prompt per line and one more, no file changed, no
    copy, no build and no inference. *)
Theorem run_prompt_exhausted H a files lines gpus :
  gpu_arg a = None ->
  probe_success H = Some gpus ->
  (2 <= length gpus)%nat ->
  Forall (fun l => valid_choice H gpus l = None) lines ->
  (run H a files lines).1 = Raise EOFError /\
  exit_status (run H a files lines).1 = 1 /\
  count_events is_Input (trace (run H a files lines).2) = S (length lines) /\
  fs (run H a files lines).2 = files /\
  Forall no_side_effect (trace (run H a files lines).2).
Proof.
  intros Ha Hp Hlen Hall.
  pose proof (choose_gpu_same_files H a (initial files lines)) as Hf.
  pose proof (choose_gpu_extends H no_side_effect a
                (conj eq_refl (conj eq_refl eq_refl))
                (fun _ => conj eq_refl (conj eq_refl eq_refl))
                (fun _ => conj eq_refl (conj eq_refl eq_refl))
                (initial files lines)) as Ht.
  apply extends_initial in Ht.
  unfold run. rewrite main_unfold.
  rewrite (choose_gpu_prompted H a gpus _ Ha Hp Hlen) in *.
  simpl stdin in *.
  set (s2 := listed gpus (log (Probe probe_cmd) (initial files lines))) in *.
  destruct (prompt_loop_eof H gpus lines s2 Hall) as (Hr & _ & Hc).
  destruct (prompt_loop H gpus lines s2) as [[g|e] s3]; simpl in *; [done|].
  simplify_eq. split; [done|]. split; [done|]. split; [|done].
  rewrite Hc, count_events_none; [done|].
  constructor; [done|]. constructor; [done|].
  apply Forall_app. split; [|by repeat constructor].
  apply Forall_fmap, Forall_forall. done.
Qed.

Lemma run_prompt_exhausted_witness :
  exit_status
    (run Demo.two_gpu_host {| gpu_arg := None; inference_args := [] |} ∅
       [str "x"; str "7"]).1 = 1.
Proof.
  apply (run_prompt_exhausted Demo.two_gpu_host
           {| gpu_arg := None; inference_args := [] |} ∅
           [str "x"; str "7"] [Demo.A100; Demo.H100]).
  - reflexivity.
  - vm_compute. reflexivity.
  - simpl. lia.
  - repeat constructor.
Defined.

Lemma find_gpu_app i before g after :
  Forall (fun g' => index g' <> i) before -> index g = i ->
  find_gpu i (before ++ g :: after) = Some g.
Proof.
  intros Hb Hi. unfold find_gpu. induction Hb as [|g0 rest Hg0 _ IH]; simpl.
  - by rewrite (proj2 (Z.eqb_eq _ _) Hi).
  - by rewrite (proj2 (Z.eqb_neq _ _) Hg0).
Qed.

(** X3.  When the probe fails or lists no device, the run prints the
    no-device message and returns, whatever the command line and the typed
    lines: exit status 0, nothing read from standard input, no file
    changed, no copy, no build and no inference. *)
Theorem run_without_devices_is_benign H a files lines :
  probe_success H = None \/ probe_success H = Some [] ->
  (run H a files lines).1 = Ok tt /\
  exit_status (run H a files lines).1 = 0 /\
  last (trace (run H a files lines).2) = Some (Print MsgNoGpus) /\
  stdin (run H a files lines).2 = lines /\
  fs (run H a files lines).2 = files /\
  Forall no_side_effect (trace (run H a files lines).2).
Proof.
  intros Hp.
  assert ((get_gpus_from_nvidia_smi H (initial files lines)).1 = Ok []) as Hg.
  { rewrite get_gpus_unfold. by destruct Hp as [-> | ->]. }
  pose proof (choose_gpu_same_files H a (initial files lines)) as Hf.
  pose proof (choose_gpu_extends H no_side_effect a
                (conj eq_refl (conj eq_refl eq_refl))
                (fun _ => conj eq_refl (conj eq_refl eq_refl))
                (fun _ => conj eq_refl (conj eq_refl eq_refl))
                (initial files lines)) as Ht.
  apply extends_initial in Ht.
  unfold run. rewrite main_unfold.
  rewrite (choose_gpu_no_devices H a _ Hg) in *. simpl in *.
  split; [done|]. split; [done|]. split; [apply last_snoc|].
  split; [|done]. rewrite get_gpus_unfold. by destruct Hp as [-> | ->].
Qed.

Lemma run_without_devices_is_benign_witness :
  exit_status
    (run (Demo.host_with (Listed 9 []) (Demo.build_idle 0) (Exited 0))
       {| gpu_arg := Some 0; inference_args := [] |} ∅ [str "0"]).1 = 0.
Proof.
  apply (run_without_devices_is_benign
           (Demo.host_with (Listed 9 []) (Demo.build_idle 0) (Exited 0))
           {| gpu_arg := Some 0; inference_args := [] |} ∅ [str "0"]).
  left. reflexivity.
Defined.

(** X4.  With exactly one device listed and no [--gpu], that device is
    selected without a prompt: the listing and the auto-selection message
    are printed and standard input is not read, whatever it holds. *)
Theorem single_device_is_auto_selected H a s g :
  gpu_arg a = None ->
  probe_success H = Some [g] ->
  (choose_gpu H a s).1 = Ok (Some g) /\
  trace (choose_gpu H a s).2 =
    trace s ++ [Probe probe_cmd; Print MsgDetected; Print (MsgGpuLine g);
                Print MsgBlank; Print (MsgAutoSelecting (name g));
                Print (MsgSelected (index g) (name g))] /\
  stdin (choose_gpu H a s).2 = stdin s.
Proof.
  intros Ha Hp. rewrite (choose_gpu_probed H a [g]) by done.
  unfold select_gpu. rewrite Ha. unfold bind.
  rewrite select_interactive_unfold. simpl.
  split; [done|]. split; [|done]. by rewrite <- !app_assoc.
Qed.

Lemma single_device_is_auto_selected_witness :
  (choose_gpu
     (Demo.host_with (Listed 0 (str "3, GB10, 128 GiB"))
        (Demo.build_idle 0) (Exited 0))
     {| gpu_arg := None; inference_args := [] |}
     (initial ∅ [str "7"])).1 =
  Ok (Some {| index := 3; name := str "GB10"; memory := str "128 GiB" |}).
Proof.
  apply (single_device_is_auto_selected
           (Demo.host_with (Listed 0 (str "3, GB10, 128 GiB"))
              (Demo.build_idle 0) (Exited 0))
           {| gpu_arg := None; inference_args := [] |}
           (initial ∅ [str "7"])
           {| index := 3; name := str "GB10"; memory := str "128 GiB" |}).
  - reflexivity.
  - vm_compute. reflexivity.
Defined.

(** X5.  With [--gpu i], the first listed device whose index is [i] is
    selected (also when several devices carry that index), with no listing
    and no prompt: the trace grows by the probe and the selection message
    only, and standard input is not read. *)
Theorem explicit_gpu_selects_first_match H a s i before g after :
  gpu_arg a = Some i ->
  probe_success H = Some (before ++ g :: after) ->
  Forall (fun g' => index g' <> i) before ->
  index g = i ->
  (choose_gpu H a s).1 = Ok (Some g) /\
  trace (choose_gpu H a s).2 =
    trace s ++ [Probe probe_cmd; Print (MsgSelected (index g) (name g))] /\
  stdin (choose_gpu H a s).2 = stdin s.
Proof.
  intros Ha Hp Hb Hi.
  rewrite (choose_gpu_probed H a (before ++ g :: after))
    by (done || by destruct before).
  unfold select_gpu. rewrite Ha, (find_gpu_app i before g after Hb Hi).
  simpl. split; [done|]. split; [|done]. by rewrite <- !app_assoc.
Qed.

Lemma explicit_gpu_selects_first_match_witness :
  (choose_gpu Demo.two_gpu_host
     {| gpu_arg := Some 1; inference_args := [] |} (initial ∅ [])).1 =
  Ok (Some Demo.H100).
Proof.
  apply (explicit_gpu_selects_first_match Demo.two_gpu_host
           {| gpu_arg := Some 1; inference_args := [] |} (initial ∅ [])
           1 [Demo.A100] Demo.H100 []).
  - reflexivity.
  - vm_compute. reflexivity.
  - repeat constructor. discriminate.
  - reflexivity.
Defined.

(** X6.  Whatever way a device gets selected (by [--gpu], automatically or
    at the prompt), it is one of the devices the probe listed; with
    [--gpu i] its index is [i].  The selection changes no file and starts
    no child besides the probe. *)
Theorem selected_device_was_probed H a s g s1 :
  choose_gpu H a s = (Ok (Some g), s1) ->
  (exists gpus, probe_success H = Some gpus /\ g ∈ gpus) /\
  (forall i, gpu_arg a = Some i -> index g = i) /\
  fs s1 = fs s /\
  extends no_side_effect s s1.
Proof.
  intros E.
  pose proof (choose_gpu_same_files H a s) as Hf.
  pose proof (choose_gpu_extends H no_side_effect a
                (conj eq_refl (conj eq_refl eq_refl))
                (fun _ => conj eq_refl (conj eq_refl eq_refl))
                (fun _ => conj eq_refl (conj eq_refl eq_refl)) s) as Ht.
  rewrite E in Hf, Ht. simpl in Hf, Ht.
  split; [|split; [|done]].
  - destruct (probe_success H) as [[|g0 rest]|] eqn:Hp.
    + unfold choose_gpu, bind in E. by rewrite get_gpus_unfold, Hp in E.
    + exists (g0 :: rest). split; [done|].
      rewrite (choose_gpu_probed H a (g0 :: rest)) in E by done.
      unfold select_gpu in E. destruct (gpu_arg a) as [i|].
      * destruct (find_gpu i (g0 :: rest)) as [g'|] eqn:Hfind; [|done].
        simpl in E. injection E as <- _. by apply find_gpu_some in Hfind as [? _].
      * unfold bind in E. rewrite select_interactive_unfold in E.
        destruct rest as [|g1 rest].
        { injection E as <- _. by left. }
        destruct (prompt_loop H (g0 :: g1 :: rest) _ _) as [[g'|e] s2] eqn:Hl;
          [|done].
        injection E as <- _.
        apply prompt_loop_ok in Hl as (rej & line & rest' & _ & _ & Hv & _).
        unfold valid_choice in Hv.
        destruct (py_int H line) as [idx|]; [|done].
        by apply find_gpu_some in Hv as [? _].
    + unfold choose_gpu, bind in E. by rewrite get_gpus_unfold, Hp in E.
  - intros i Hi.
    destruct (probe_success H) as [[|g0 rest]|] eqn:Hp.
    + unfold choose_gpu, bind in E. by rewrite get_gpus_unfold, Hp in E.
    + rewrite (choose_gpu_probed H a (g0 :: rest)) in E by done.
      unfold select_gpu in E. rewrite Hi in E.
      destruct (find_gpu i (g0 :: rest)) as [g'|] eqn:Hfind; [|done].
      simpl in E. injection E as <- _. by apply find_gpu_some in Hfind as [_ ?].
    + unfold choose_gpu, bind in E. by rewrite get_gpus_unfold, Hp in E.
Qed.

Lemma selected_device_was_probed_witness :
  exists gpus,
    probe_success Demo.two_gpu_host = Some gpus /\ Demo.A100 ∈ gpus.
Proof.
  apply (selected_device_was_probed Demo.two_gpu_host
           {| gpu_arg := None; inference_args := [] |}
           (initial ∅ [str "0"]) Demo.A100
           (choose_gpu Demo.two_gpu_host
              {| gpu_arg := None; inference_args := [] |}
              (initial ∅ [str "0"])).2).
  vm_compute. reflexivity.
Defined.

(** ** Further properties: the engine cache manager *)

Lemma run_inference_unfold H i extra_args s :
  run_inference H i extra_args s =
  (Ok tt,
   set_fs
     (inference_online H (device_env H i)
        ([sys_executable H; INFERENCE_SCRIPT] ++ extra_args) (fs s)).2
     (log (Inference ([sys_executable H; INFERENCE_SCRIPT] ++ extra_args)
             (device_env H i))
        (log (Print (MsgLaunching i)) s))).
Proof.
  unfold run_inference, bind, print, try_except, run_child. simpl.
  by destruct (inference_online _ _ _ _) as [[rc|] files].
Qed.

(** The events of one [manage_engine]: one build exactly when the cache
    file is missing, never an inference. *)
Lemma manage_engine_events H g s :
  exists evs,
    trace (manage_engine H g s).2 = trace s ++ evs /\
    count_events is_Build evs =
      match fs s !! cached_engine_path g with
      | Some _ => 0%nat
      | None => 1%nat
      end /\
    count_events is_Inference evs = 0%nat.
Proof.
  destruct (fs s !! cached_engine_path g) as [c|] eqn:Hc.
  { rewrite (manage_engine_hit H g s c Hc). simpl. eexists. split.
    - rewrite <- !app_assoc. reflexivity.
    - done. }
  rewrite (manage_engine_miss H g s Hc).
  destruct (torch2trt H _ _) as [[rc|] files]; simpl.
  - destruct (rc =? 0); [destruct (files !! active_engine_path)|];
      simpl; (eexists; split; [rewrite <- !app_assoc; reflexivity|done]).
  - eexists. split; [rewrite <- !app_assoc; reflexivity|done].
Qed.

(** X7.  One invocation of [manage_engine] starts the build exactly once
    when the cache file of the device is missing (a failed build is not
    retried) and not at all when it exists; it never starts inference. *)
Theorem manage_engine_builds_at_most_once H g s :
  exists evs,
    trace (manage_engine H g s).2 = trace s ++ evs /\
    count_events is_Build evs =
      match fs s !! cached_engine_path g with
      | Some _ => 0%nat
      | None => 1%nat
      end /\
    count_events is_Inference evs = 0%nat.
Proof. apply manage_engine_events. Qed.

(** X8.  On a cache miss the manager itself writes at most the cache file:
    when it returns [True] the files are those the build left, plus the
    cache file with the bytes of the active engine; in every other case
    (build failed, output missing, build interrupted) the files are exactly
    those the build left and nothing was copied, so a failed attempt
    creates no cache entry of its own. *)
Theorem manage_engine_miss_writes_cache_only H g s :
  fs s !! cached_engine_path g = None ->
  let files := (torch2trt H (device_env H (index g)) (fs s)).2 in
  ((manage_engine H g s).1 = Ok true ->
     exists c, files !! active_engine_path = Some c /\
       fs (manage_engine H g s).2 = <[cached_engine_path g := c]> files) /\
  ((manage_engine H g s).1 <> Ok true ->
     fs (manage_engine H g s).2 = files /\
     exists evs, trace (manage_engine H g s).2 = trace s ++ evs /\
       count_events is_Copy2 evs = 0%nat).
Proof.
  intros Hc. rewrite (manage_engine_miss H g s Hc).
  destruct (torch2trt H _ _) as [[rc|] files]; simpl.
  - destruct (rc =? 0); [destruct (files !! active_engine_path) as [c|]|];
      simpl.
    + split; [by eauto|done].
    + split; [done|]. intros _. split; [done|].
      eexists. split; [rewrite <- !app_assoc; reflexivity|done].
    + split; [done|]. intros _. split; [done|].
      eexists. split; [rewrite <- !app_assoc; reflexivity|done].
  - split; [done|]. intros _. split; [done|].
    eexists. split; [rewrite <- !app_assoc; reflexivity|done].
Qed.

Lemma manage_engine_miss_writes_cache_only_witness :
  fs (manage_engine
        (Demo.host_with Demo.two_gpus (Demo.build_idle 2) (Exited 0))
        Demo.A100 (initial ∅ [])).2 = ∅.
Proof.
  apply (manage_engine_miss_writes_cache_only
           (Demo.host_with Demo.two_gpus (Demo.build_idle 2) (Exited 0))
           Demo.A100 (initial ∅ [])).
  - reflexivity.
  - vm_compute. discriminate.
Defined.

(** X9.  Restoring is idempotent: when the cache file exists, a second
    [manage_engine] right after the first leaves the files exactly as the
    first did. *)
Theorem manage_engine_hit_idempotent H H' g s c :
  fs s !! cached_engine_path g = Some c ->
  (manage_engine H' g (manage_engine H g s).2).1 = Ok true /\
  fs (manage_engine H' g (manage_engine H g s).2).2 =
    fs (manage_engine H g s).2.
Proof.
  intros Hc. rewrite (manage_engine_hit H g s c Hc).
  set (s1 := log (Copy2 _ _) _). simpl.
  assert (fs s1 !! cached_engine_path g = Some c) as Hc'.
  { simpl. rewrite lookup_insert_ne; [done|].
    intros E. by apply (cached_engine_path_not_active g). }
  rewrite (manage_engine_hit H' g s1 c Hc'). simpl.
  split; [done|]. apply insert_insert_eq.
Qed.

Lemma manage_engine_hit_idempotent_witness :
  fs (manage_engine Demo.two_gpu_host Demo.A100
        (manage_engine Demo.two_gpu_host Demo.A100
           (initial {[ cached_engine_path Demo.A100 := Demo.engine ]} [])).2).2
  = fs (manage_engine Demo.two_gpu_host Demo.A100
          (initial {[ cached_engine_path Demo.A100 := Demo.engine ]} [])).2.
Proof.
  apply (manage_engine_hit_idempotent Demo.two_gpu_host Demo.two_gpu_host
           Demo.A100
           (initial {[ cached_engine_path Demo.A100 := Demo.engine ]} [])
           Demo.engine).
  vm_compute. reflexivity.
Defined.

(** ** Further properties: the whole run *)

Lemma count_events_no_side_effect evs :
  Forall no_side_effect evs ->
  count_events is_Build evs = 0%nat /\
  count_events is_Inference evs = 0%nat /\
  count_events is_Copy2 evs = 0%nat.
Proof.
  intros Hq. repeat split; apply count_events_none;
    (eapply Forall_impl; [exact Hq|]); by intros e (? & ? & ?).
Qed.

(** The selection, from the start of a run: what it leaves behind. *)
Lemma choose_gpu_initial H a files lines :
  fs (choose_gpu H a (initial files lines)).2 = files /\
  Forall no_side_effect (trace (choose_gpu H a (initial files lines)).2).
Proof.
  split.
  - apply (choose_gpu_same_files H a (initial files lines)).
  - apply (extends_initial _ files lines).
    apply choose_gpu_extends; by repeat split.
Qed.

(** The two ways the selection ends without a device. *)
Lemma choose_gpu_none H a s s1 :
  choose_gpu H a s = (Ok None, s1) ->
  last (trace s1) = Some (Print MsgNoGpus) \/
  exists i, gpu_arg a = Some i /\
            last (trace s1) = Some (Print (MsgIndexNotFound i)).
Proof.
  destruct (probe_success H) as [[|g0 rest]|] eqn:Hp.
  - unfold choose_gpu, bind. rewrite get_gpus_unfold, Hp.
    intros [= <-]. left. apply last_snoc.
  - rewrite (choose_gpu_probed H a (g0 :: rest)) by done.
    unfold select_gpu. destruct (gpu_arg a) as [i|].
    + destruct (find_gpu i (g0 :: rest)); simpl; [done|].
      intros [= <-]. right. exists i. split; [done|]. apply last_snoc.
    + unfold bind.
      by destruct (select_interactive H (g0 :: rest) _) as [[g|e] s2].
  - unfold choose_gpu, bind. rewrite get_gpus_unfold, Hp.
    intros [= <-]. left. apply last_snoc.
Qed.

(** X10.  [main] returns normally by three paths only.  Either no device
    was found or the [--gpu] index matched none: then the diagnostic is
    the last thing printed, no file changed and nothing was built, copied
    or launched.  Or a device was selected and [manage_engine] returned
    [True]: then the inference child, started under the environment of the
    selected device, is the last action.  So [main] never returns normally
    after a failed engine step or without having reached a decision. *)
Theorem run_returns_by_three_paths H a files lines :
  (run H a files lines).1 = Ok tt ->
  (fs (run H a files lines).2 = files /\
   Forall no_side_effect (trace (run H a files lines).2) /\
   (last (trace (run H a files lines).2) = Some (Print MsgNoGpus) \/
    exists i, gpu_arg a = Some i /\
      last (trace (run H a files lines).2)
        = Some (Print (MsgIndexNotFound i))))
  \/
  (exists g s1 s2,
     choose_gpu H a (initial files lines) = (Ok (Some g), s1) /\
     manage_engine H g s1 = (Ok true, s2) /\
     last (trace (run H a files lines).2) =
       Some (Inference ([sys_executable H; INFERENCE_SCRIPT] ++ pass_args a)
               (device_env H (index g)))).
Proof.
  destruct (choose_gpu_initial H a files lines) as [Hf Ht].
  pose proof (choose_gpu_none H a (initial files lines)) as Hn.
  unfold run. rewrite main_unfold.
  destruct (choose_gpu H a (initial files lines)) as [[[g|]|e] s1];
    simpl in *; [| |done].
  - destruct (manage_engine H g s1) as [[[|]|e] s2] eqn:Em; simpl; try done.
    intros _. right. exists g, s1, s2. split; [done|]. split; [done|].
    rewrite run_inference_unfold. simpl. apply last_snoc.
  - intros _. left. split; [done|]. split; [done|]. by apply Hn.
Qed.

Lemma run_returns_by_three_paths_witness :
  (fs (run Demo.two_gpu_host
         {| gpu_arg := Some 5; inference_args := [] |} ∅ []).2 = ∅ /\
   Forall no_side_effect
     (trace (run Demo.two_gpu_host
               {| gpu_arg := Some 5; inference_args := [] |} ∅ []).2) /\
   (last (trace (run Demo.two_gpu_host
                   {| gpu_arg := Some 5; inference_args := [] |} ∅ []).2)
      = Some (Print MsgNoGpus) \/
    exists i, Some 5 = Some i /\
      last (trace (run Demo.two_gpu_host
                     {| gpu_arg := Some 5; inference_args := [] |} ∅ []).2)
        = Some (Print (MsgIndexNotFound i))))
  \/
  (exists g s1 s2,
     choose_gpu Demo.two_gpu_host
       {| gpu_arg := Some 5; inference_args := [] |} (initial ∅ [])
       = (Ok (Some g), s1) /\
     manage_engine Demo.two_gpu_host g s1 = (Ok true, s2) /\
     last (trace (run Demo.two_gpu_host
                    {| gpu_arg := Some 5; inference_args := [] |} ∅ []).2) =
       Some (Inference
               ([sys_executable Demo.two_gpu_host; INFERENCE_SCRIPT]
                  ++ pass_args {| gpu_arg := Some 5; inference_args := [] |})
               (device_env Demo.two_gpu_host (index g)))).
Proof.
  apply (run_returns_by_three_paths Demo.two_gpu_host
           {| gpu_arg := Some 5; inference_args := [] |} ∅ []).
  vm_compute. reflexivity.
Defined.

(** X11.  When the cache file of the selected device exists at the start,
    the whole run starts no build: it restores the engine and launches
    inference once, on files where the active engine has the bytes of that
    cache file. *)
Theorem run_with_cached_engine H a files lines g s1 c :
  choose_gpu H a (initial files lines) = (Ok (Some g), s1) ->
  files !! cached_engine_path g = Some c ->
  (run H a files lines).1 = Ok tt /\
  count_events is_Build (trace (run H a files lines).2) = 0%nat /\
  count_events is_Inference (trace (run H a files lines).2) = 1%nat /\
  fs (run H a files lines).2 =
    (inference_online H (device_env H (index g))
       ([sys_executable H; INFERENCE_SCRIPT] ++ pass_args a)
       (<[active_engine_path := c]> files)).2.
Proof.
  intros E Hc.
  destruct (choose_gpu_initial H a files lines) as [Hf Ht].
  rewrite E in Hf, Ht. simpl in Hf, Ht.
  destruct (count_events_no_side_effect _ Ht) as (Hb & Hi & _).
  rewrite <- Hf in Hc.
  unfold run. rewrite main_unfold, E, (manage_engine_hit H g s1 c Hc).
  rewrite run_inference_unfold. simpl. rewrite Hf.
  split; [done|]. rewrite !count_events_app, Hb, Hi. done.
Qed.

Lemma run_with_cached_engine_witness :
  count_events is_Build
    (trace (run Demo.two_gpu_host
              {| gpu_arg := Some 0; inference_args := [] |}
              {[ cached_engine_path Demo.A100 := Demo.engine ]} []).2)
  = 0%nat.
Proof.
  apply (run_with_cached_engine Demo.two_gpu_host
           {| gpu_arg := Some 0; inference_args := [] |}
           {[ cached_engine_path Demo.A100 := Demo.engine ]} [] Demo.A100
           (choose_gpu Demo.two_gpu_host
              {| gpu_arg := Some 0; inference_args := [] |}
              (initial {[ cached_engine_path Demo.A100 := Demo.engine ]}
                 [])).2 Demo.engine).
  - vm_compute. reflexivity.
  - vm_compute. reflexivity.
Defined.

(** X12.  When the operator interrupts the build, the run ends with the
    uncaught [KeyboardInterrupt] (exit status 130): nothing is copied, no
    inference is started, and the files are as the build left them. *)
Theorem run_build_interrupted H a files lines g s1 :
  choose_gpu H a (initial files lines) = (Ok (Some g), s1) ->
  files !! cached_engine_path g = None ->
  (torch2trt H (device_env H (index g)) files).1 = Interrupted ->
  (run H a files lines).1 = Raise KeyboardInterrupt /\
  exit_status (run H a files lines).1 = 130 /\
  count_events is_Inference (trace (run H a files lines).2) = 0%nat /\
  count_events is_Copy2 (trace (run H a files lines).2) = 0%nat /\
  fs (run H a files lines).2 =
    (torch2trt H (device_env H (index g)) files).2.
Proof.
  intros E Hc Hb.
  destruct (choose_gpu_initial H a files lines) as [Hf Ht].
  rewrite E in Hf, Ht. simpl in Hf, Ht.
  destruct (count_events_no_side_effect _ Ht) as (_ & Hi & Hcp).
  rewrite <- Hf in Hc, Hb.
  unfold run. rewrite main_unfold, E, (manage_engine_miss H g s1 Hc).
  rewrite <- Hf.
  destruct (torch2trt H _ _) as [[rc|] files']; simpl in *; [done|].
  split; [done|]. split; [done|]. rewrite !count_events_app, Hi, Hcp. done.
Qed.

Lemma run_build_interrupted_witness :
  exit_status
    (run (Demo.host_with Demo.two_gpus
            (fun _ files => (Interrupted, files)) (Exited 0))
       {| gpu_arg := Some 0; inference_args := [] |} ∅ []).1 = 130.
Proof.
  apply (run_build_interrupted
           (Demo.host_with Demo.two_gpus
              (fun _ files => (Interrupted, files)) (Exited 0))
           {| gpu_arg := Some 0; inference_args := [] |} ∅ [] Demo.A100
           (choose_gpu
              (Demo.host_with Demo.two_gpus
                 (fun _ files => (Interrupted, files)) (Exited 0))
              {| gpu_arg := Some 0; inference_args := [] |}
              (initial ∅ [])).2).
  - vm_compute. reflexivity.
  - reflexivity.
  - reflexivity.
Defined.

(** X13.  Every run starts at most one build and at most one inference
    child, and it starts inference only when [main] then returns. *)
Theorem run_starts_each_child_at_most_once H a files lines :
  (count_events is_Build (trace (run H a files lines).2) <= 1)%nat /\
  (count_events is_Inference (trace (run H a files lines).2) = 0%nat \/
   count_events is_Inference (trace (run H a files lines).2) = 1%nat /\
   (run H a files lines).1 = Ok tt).
Proof.
  destruct (choose_gpu_initial H a files lines) as [_ Ht].
  destruct (count_events_no_side_effect _ Ht) as (Hb & Hi & _).
  unfold run. rewrite main_unfold.
  destruct (choose_gpu H a (initial files lines)) as [[[g|]|e] s1];
    simpl in *; try (rewrite Hb, Hi; split; [lia|by left]).
  destruct (manage_engine_events H g s1) as (evs & He & Hbe & Hie).
  assert (count_events is_Build evs <= 1)%nat as Hle.
  { rewrite Hbe. destruct (fs s1 !! cached_engine_path g); lia. }
  destruct (manage_engine H g s1) as [[[|]|e] s2]; simpl in *.
  - rewrite run_inference_unfold. simpl.
    rewrite He, !count_events_app, Hb, Hi, Hie.
    unfold count_events at 2 3 4 5. simpl. split; [lia|by right].
  - rewrite He, !count_events_app, Hb, Hi, Hie. split; [lia|by left].
  - rewrite He, !count_events_app, Hb, Hi, Hie. split; [lia|by left].
Qed.

(** ** Further properties: names, paths, environments, arguments *)

Lemma str_inj s1 s2 : str s1 = str s2 -> s1 = s2.
Proof.
  unfold str. intros E.
  rewrite <- (string_of_list_ascii_of_string s1),
          <- (string_of_list_ascii_of_string s2).
  f_equal. revert E.
  generalize (list_ascii_of_string s1) (list_ascii_of_string s2).
  induction l as [|c1 l1 IH]; intros [|c2 l2]; simpl; try done.
  intros [= Hc Hl]. f_equal; [|by apply IH].
  by rewrite <- (ascii_N_embedding c1), <- (ascii_N_embedding c2), Hc.
Qed.

Lemma is_word_char_fixed c :
  (if is_alnum c then c else 95%N) = c <-> is_word_char c = true.
Proof.
  unfold is_word_char. destruct (is_alnum c); simpl.
  - done.
  - rewrite N.eqb_eq. split; congruence.
Qed.

(** X14.  A name is left unchanged by the sanitization exactly when all
    its characters are in [[A-Za-z0-9_]]; so sanitizing twice is the same
    as sanitizing once. *)
Theorem get_sanitized_name_fixed_points name :
  (get_sanitized_name name = name <->
   Forall (fun c => is_word_char c = true) name) /\
  get_sanitized_name (get_sanitized_name name) = get_sanitized_name name.
Proof.
  assert (forall n, get_sanitized_name n = n <->
                    Forall (fun c => is_word_char c = true) n) as Hfix.
  { unfold get_sanitized_name. induction n as [|c n IH]; simpl.
    - split; [by constructor|done].
    - split.
      + intros [= Hc Hn]. constructor; [by apply is_word_char_fixed|].
        by apply IH.
      + intros HF. apply Forall_cons in HF as [Hc Hn]. f_equal.
        * by apply is_word_char_fixed.
        * by apply IH. }
  split; [apply Hfix|]. apply Hfix.
  unfold get_sanitized_name. apply Forall_fmap, Forall_forall.
  intros c _. simpl. unfold is_word_char.
  destruct (is_alnum c) eqn:E; [by rewrite E|done].
Qed.

Lemma get_sanitized_name_fixed_points_witness :
  get_sanitized_name (str "RTX_3090") = str "RTX_3090".
Proof.
  apply (proj1 (get_sanitized_name_fixed_points (str "RTX_3090"))).
  repeat constructor.
Defined.

(** X15.  Two devices have the same cache file exactly when their names
    sanitize to the same string; the index and the memory play no part.
    So names that differ only in characters outside [[A-Za-z0-9]] share
    one cache entry. *)
Theorem cache_file_keyed_by_sanitized_name g g' :
  cached_engine_path g = cached_engine_path g' <->
  get_sanitized_name (name g) = get_sanitized_name (name g').
Proof.
  split.
  - rewrite !cached_engine_path_eq. intros E.
    apply app_inv_head in E. by apply app_inv_tail in E.
  - intros E. by apply cached_engine_path_same_key.
Qed.

Lemma cache_file_keyed_by_sanitized_name_witness :
  cached_engine_path
    {| index := 0; name := str "RTX 3090"; memory := str "24 GiB" |} =
  cached_engine_path
    {| index := 1; name := str "RTX-3090"; memory := str "24576 MiB" |}.
Proof.
  apply (proj2 (cache_file_keyed_by_sanitized_name
                  {| index := 0; name := str "RTX 3090";
                     memory := str "24 GiB" |}
                  {| index := 1; name := str "RTX-3090";
                     memory := str "24576 MiB" |})).
  reflexivity.
Defined.

(** X16.  Whatever the device is called, its cache file lies directly in
    the engine directory: the path is the directory, one separator, and a
    file name [unet_work_<key>.engine] that contains no separator, and it
    is never the active engine file. *)
Theorem cache_file_stays_in_engine_dir g :
  cached_engine_path g = ENGINE_DIR ++ [47%N] ++ cached_engine_filename g /\
  (47%N ∉ cached_engine_filename g) /\
  length (cached_engine_filename g) = (17 + length (name g))%nat /\
  cached_engine_path g <> active_engine_path.
Proof.
  split; [reflexivity|]. split; [|split].
  - unfold cached_engine_filename. rewrite !not_elem_of_app.
    split; [|split].
    + vm_compute. intros Hin. apply list_elem_of_In in Hin. simpl in Hin.
      repeat (destruct Hin as [Hin|Hin]; [discriminate Hin|]). done.
    + unfold get_sanitized_name. intros Hin.
      apply list_elem_of_fmap in Hin as (c & Hc & _).
      destruct (is_alnum c) eqn:E; [|done]. subst c. done.
    + vm_compute. intros Hin. apply list_elem_of_In in Hin. simpl in Hin.
      repeat (destruct Hin as [Hin|Hin]; [discriminate Hin|]). done.
  - unfold cached_engine_filename, get_sanitized_name.
    rewrite !length_app, length_fmap. simpl. lia.
  - apply cached_engine_path_not_active.
Qed.

(** X17.  The child environment differs from [os.environ] in
    [CUDA_VISIBLE_DEVICES] only, a value already set there is overridden,
    and devices with different indices get different values. *)
Theorem device_env_restricts_one_variable H i j :
  (forall k, k <> CUDA_VISIBLE_DEVICES ->
     device_env H i !! k = environ H !! k) /\
  device_env H i !! CUDA_VISIBLE_DEVICES = Some (py_str i) /\
  (device_env H i = device_env H j <-> i = j).
Proof.
  split; [|split].
  - intros k Hk. unfold device_env. by rewrite lookup_insert_ne.
  - apply lookup_insert_eq.
  - split; [|by intros ->]. intros E.
    assert (device_env H i !! CUDA_VISIBLE_DEVICES
            = device_env H j !! CUDA_VISIBLE_DEVICES) as E' by by rewrite E.
    unfold device_env in E'. rewrite !lookup_insert_eq in E'.
    injection E' as E'. unfold py_str in E'. apply str_inj in E'.
    by apply (inj pretty) in E'.
Qed.

Lemma device_env_restricts_one_variable_witness :
  device_env Demo.two_gpu_host 1 !! str "HOME" = Some (str "/root").
Proof.
  rewrite (proj1 (device_env_restricts_one_variable Demo.two_gpu_host 1 0)
             (str "HOME")).
  - vm_compute. reflexivity.
  - discriminate.
Defined.

(** X18.  The arguments forwarded to inference always contain
    ["--acceleration"], start with the caller's arguments, and are not
    changed by a second injection. *)
Theorem pass_args_has_flag a :
  str "--acceleration" ∈ pass_args a /\
  inference_args a `prefix_of` pass_args a /\
  pass_args {| gpu_arg := gpu_arg a; inference_args := pass_args a |} =
    pass_args a.
Proof.
  assert (str "--acceleration" ∈ pass_args a) as Hin.
  { unfold pass_args. case_bool_decide; [done|].
    apply elem_of_app. right. by left. }
  split; [done|]. split.
  - unfold pass_args. case_bool_decide; [done|]. by apply prefix_app_r.
  - unfold pass_args at 1. simpl. by rewrite bool_decide_true.
Qed.

(** X19.  One bad row spoils the probe: when the listing exits with 0 but
    some row with at least three fields has a first field that is not a
    number, the probe reports the [ValueError] and returns the empty list,
    however many other rows are well formed. *)
Theorem probe_bad_row_discards_all H s out row f0 more :
  nvidia_smi H = Listed 0 out ->
  row ∈ (csv_reader H out).1 ->
  row = f0 :: more -> (2 <= length more)%nat ->
  py_int H (py_strip H f0) = None ->
  get_gpus_from_nvidia_smi H s =
  (Ok [], log (Print (MsgQueryFailed ValueError)) (log (Probe probe_cmd) s)).
Proof.
  intros Hs Hin -> Hlen Hint.
  assert (parsed_devices H (csv_reader H out).1 = None) as Hnone.
  { unfold parsed_devices. apply mapM_None_2, Exists_exists.
    exists (f0 :: more). split.
    - apply list_elem_of_filter. split; [simpl; lia|done].
    - destruct more as [|f1 [|f2 tl]]; [simpl in Hlen; lia..|].
      simpl. by rewrite Hint. }
  rewrite get_gpus_unfold. unfold probe_success. rewrite Hs.
  destruct (csv_reader H out) as [rows broken]. simpl in *.
  rewrite Hnone. by destruct broken.
Qed.

Lemma probe_bad_row_discards_all_witness :
  (get_gpus_from_nvidia_smi
     (Demo.host_with
        (Listed 0 (str "0, A100, 40960 MiB" ++ [10%N] ++
                   str "GPU-1, H100, 81559 MiB"))
        (Demo.build_idle 0) (Exited 0))
     (initial ∅ [])).1 = Ok [].
Proof.
  rewrite (probe_bad_row_discards_all
             (Demo.host_with
                (Listed 0 (str "0, A100, 40960 MiB" ++ [10%N] ++
                           str "GPU-1, H100, 81559 MiB"))
                (Demo.build_idle 0) (Exited 0))
             (initial ∅ [])
             (str "0, A100, 40960 MiB" ++ [10%N] ++
              str "GPU-1, H100, 81559 MiB")
             [str "GPU-1"; str " H100"; str " 81559 MiB"]
             (str "GPU-1") [str " H100"; str " 81559 MiB"]).
  - reflexivity.
  - reflexivity.
  - vm_compute. right. left.
  - reflexivity.
  - simpl. lia.
  - vm_compute. reflexivity.
Defined.

(** ** Further properties: the patch utility *)

Lemma starts_with_app_inv p u t :
  starts_with p (u ++ t) = true ->
  starts_with p u = true \/
  exists q, p = u ++ q /\ q <> [] /\ starts_with q t = true.
Proof.
  revert p. induction u as [|d u IH]; intros p; simpl.
  - destruct p as [|c p]; [by left|]. intros Hp. right. by exists (c :: p).
  - destruct p as [|c p]; [by left|]. simpl.
    intros [Hc Hp]%andb_true_iff. apply N.eqb_eq in Hc as ->.
    destruct (IH p Hp) as [Hu|(q & -> & Hq & Ht)].
    + left. by rewrite N.eqb_refl.
    + right. by exists q.
Qed.

Lemma starts_with_app_l p u t :
  starts_with p u = true -> starts_with p (u ++ t) = true.
Proof.
  revert p. induction u as [|d u IH]; intros [|c p]; simpl; try done.
  intros [Hc Hp]%andb_true_iff. rewrite Hc. simpl. by apply IH.
Qed.

Lemma starts_with_app_r u q t :
  starts_with q t = true -> starts_with (u ++ q) (u ++ t) = true.
Proof.
  intros Hq. induction u as [|d u IH]; simpl; [done|].
  by rewrite N.eqb_refl.
Qed.

(** A prefix of [a ++ t] is a prefix of [a] or has [a] as a prefix. *)
Lemma starts_with_app_cases q a t :
  starts_with q (a ++ t) = true ->
  starts_with q a = true \/ starts_with a q = true.
Proof.
  intros Hq. destruct (starts_with_app_inv q a t Hq) as [?|(r & -> & _ & _)].
  - by left.
  - right. rewrite <- (app_nil_r a) at 1. by apply starts_with_app_r.
Qed.

Lemma overlap_free_spec old new :
  overlap_free old new = true ->
  exists o old',
    old = o :: old' /\
    Forall (fun c => c <> o) new /\
    forall u q, old = u ++ q -> u <> [] -> q <> [] ->
      starts_with q new = false /\ starts_with new q = false.
Proof.
  unfold overlap_free. destruct old as [|o old']; [done|].
  intros [Hh Hs]%andb_true_iff. exists o, old'. split; [done|]. split.
  - apply Forall_forall. intros c Hc%list_elem_of_In.
    rewrite forallb_forall in Hh. specialize (Hh c Hc).
    apply negb_true_iff, N.eqb_neq in Hh. congruence.
  - intros u q E Hu Hq. rewrite forallb_forall in Hs.
    assert (In (length u) (seq 1 (length (o :: old') - 1))) as Hin.
    { apply in_seq. assert (length (o :: old') = length (u ++ q)) as Hl
        by by rewrite E.
      rewrite length_app in Hl.
      destruct u; [done|]. destruct q; [done|]. simpl in *. lia. }
    specialize (Hs _ Hin). rewrite E, drop_app_length in Hs.
    apply negb_true_iff, orb_false_iff in Hs. done.
Qed.

Lemma contains_skip_foreign o old' new t :
  Forall (fun c => c <> o) new ->
  contains (o :: old') (new ++ t) = contains (o :: old') t.
Proof.
  induction 1 as [|c new' Hc _ IH]; [done|].
  simpl in *. rewrite IH. by rewrite (proj2 (N.eqb_neq o c)) by congruence.
Qed.

Section Replace.

Variables old new : pystr.
Hypothesis Hfree : overlap_free old new = true.

(** A character of [new] never starts an occurrence of [old]. *)
Lemma contains_skip_new t :
  contains old (new ++ t) = contains old t.
Proof.
  destruct (overlap_free_spec old new Hfree) as (o & old' & E & Hh & _).
  rewrite E. by apply contains_skip_foreign.
Qed.

(** What [old] matches after the replacement, it matched before. *)
Lemma starts_with_replaced r u :
  u <> [] ->
  starts_with old (u ++ replace_from old new 0 r) = true ->
  starts_with old (u ++ r) = true.
Proof.
  destruct (overlap_free_spec old new Hfree) as (o & old' & E & _ & Hs).
  revert u. induction r as [|d r IH]; intros u Hu; [done|].
  simpl replace_from. destruct (starts_with old (d :: r)) eqn:Hocc.
  - intros Hm. apply starts_with_app_inv in Hm as [Hm|(q & Eq & Hq & Hm)].
    + by apply starts_with_app_l.
    + exfalso. destruct (Hs u q Eq Hu Hq) as [H1 H2].
      apply starts_with_app_cases in Hm as [Hm|Hm]; congruence.
  - intros Hm. rewrite cons_middle, app_assoc in Hm |- *.
    apply IH; [by destruct u|done].
Qed.

Lemma replace_from_clean s skip :
  contains old (replace_from old new skip s) = false.
Proof.
  destruct (overlap_free_spec old new Hfree) as (o & old' & E & _ & _).
  revert skip. induction s as [|c r IH]; intros skip.
  - simpl. by rewrite E.
  - destruct skip as [|k]; [|apply IH]. simpl replace_from.
    destruct (starts_with old (c :: r)) eqn:Hocc.
    + rewrite contains_skip_new. apply IH.
    + change (contains old (c :: replace_from old new 0 r))
        with (starts_with old (c :: replace_from old new 0 r)
              || contains old (replace_from old new 0 r)).
      rewrite IH, orb_false_r.
      destruct (starts_with old (c :: replace_from old new 0 r)) eqn:Hm;
        [|done].
      apply (starts_with_replaced r [c]) in Hm; [|done]. simpl in Hm.
      congruence.
Qed.

End Replace.

(** Without an occurrence, [replace] changes nothing. *)
Lemma replace_from_absent old new s :
  contains old s = false -> replace_from old new 0 s = s.
Proof.
  induction s as [|c r IH]; [done|]. simpl.
  intros [Hs Hr]%orb_false_iff. destruct old as [|o old']; [done|].
  simpl in Hs |- *. rewrite Hs. f_equal. by apply IH.
Qed.

Lemma broken_ref_overlap_free : overlap_free broken_ref fixed_code = true.
Proof. by vm_compute. Qed.

(** The last four characters of a path tell the three files apart. *)
Lemma os_path_join_tail a b :
  (4 <= length b)%nat -> head b <> Some 47%N ->
  take 4 (reverse (os_path_join a b)) = take 4 (reverse b).
Proof.
  intros Hlen Hb. unfold os_path_join.
  assert (forall pre, take 4 (reverse (pre ++ b)) = take 4 (reverse b)) as Hpre.
  { intros pre. rewrite reverse_app, take_app_le; [done|].
    by rewrite length_reverse. }
  destruct b as [|c b]; [simpl in Hlen; lia|].
  assert (match c with
          | 47%N => c :: b
          | _ => match last a with
                 | Some 47%N => a ++ c :: b
                 | Some _ => a ++ 47%N :: c :: b
                 | None => c :: b
                 end
          end
          = match last a with
            | Some 47%N => a ++ c :: b
            | Some _ => a ++ 47%N :: c :: b
            | None => c :: b
            end) as ->.
  { destruct c as [|p]; [done|].
    destruct (decide (p = 47%positive)) as [->|Hp]; [by destruct Hb|].
    by repeat (destruct p as [p|p|]; try done). }
  destruct (last a) as [l|]; [|done].
  assert (forall x, take 4 (reverse (a ++ 47%N :: c :: b))
                    = take 4 (reverse (c :: b)) ->
                    take 4 (reverse (a ++ c :: b)) = take 4 (reverse (c :: b)) ->
                    take 4 (reverse (match x with
                                     | 47%N => a ++ c :: b
                                     | _ => a ++ 47%N :: c :: b
                                     end))
                    = take 4 (reverse (c :: b))) as Hx.
  { intros x H1 H2. destruct x as [|p]; [done|].
    by repeat (destruct p as [p|p|]; try done). }
  apply Hx; [|apply Hpre].
  change (a ++ 47%N :: c :: b) with (a ++ [47%N] ++ c :: b).
  rewrite app_assoc. apply Hpre.
Qed.

Lemma patch_paths_distinct sp :
  torch_cuda_init sp <> my_patch /\
  onnx_exporter sp <> my_patch /\
  torch_cuda_init sp <> onnx_exporter sp.
Proof.
  assert (take 4 (reverse (torch_cuda_init sp)) = take 4 (reverse (str "__init__.py")))
    as Ht by (apply os_path_join_tail; [simpl; lia|done]).
  assert (take 4 (reverse (onnx_exporter sp))
          = take 4 (reverse (str "onnx_exporter.py")))
    as Ho by (apply os_path_join_tail; [simpl; lia|done]).
  repeat split; intros E.
  - rewrite E in Ht. by vm_compute in Ht.
  - rewrite E in Ho. by vm_compute in Ho.
  - rewrite E, Ho in Ht. by vm_compute in Ht.
Qed.

Lemma patch_torch_files sp s :
  files (patch_torch sp s) =
  match files s !! torch_cuda_init sp, files s !! my_patch with
  | Some _, Some patch => <[torch_cuda_init sp := patch]> (files s)
  | _, _ => files s
  end.
Proof.
  unfold patch_torch.
  by destruct (files s !! torch_cuda_init sp), (files s !! my_patch).
Qed.

Lemma patch_onnx_files H sp s :
  files (patch_onnx H sp s).2 =
  match files s !! onnx_exporter sp with
  | Some raw =>
      match decode H raw with
      | Some content =>
          if contains broken_ref content
          then <[onnx_exporter sp :=
                   encode H (py_replace broken_ref fixed_code content)]>
                 (files s)
          else files s
      | None => files s
      end
  | None => files s
  end.
Proof.
  unfold patch_onnx. destruct (files s !! onnx_exporter sp) as [raw|]; [|done].
  destruct (decode H raw) as [content|]; [|done].
  by destruct (contains broken_ref content).
Qed.

(** X20.  The patch utility never creates or deletes a file and changes at
    most two: [torch/cuda/__init__.py] and
    [onnx_graphsurgeon/exporters/onnx_exporter.py] under the first
    site-packages directory.  Every other file, the patch source
    [patches/torch_cuda_init.py] included, keeps its bytes.  With an empty
    site-packages list it fails with [IndexError] before doing anything. *)
Theorem apply_patches_touches_two_files H s :
  dom (files (apply_patches H s).2) = dom (files s) /\
  files (apply_patches H s).2 !! my_patch = files s !! my_patch /\
  (forall sp p,
     head (getsitepackages H) = Some sp ->
     p <> torch_cuda_init sp -> p <> onnx_exporter sp ->
     files (apply_patches H s).2 !! p = files s !! p) /\
  (getsitepackages H = [] -> apply_patches H s = (Some IndexError, s)).
Proof.
  unfold apply_patches.
  destruct (getsitepackages H) as [|sp rest]; [done|].
  destruct (patch_paths_distinct sp) as (Ht & Ho & _).
  assert (dom (files (patch_torch sp s)) = dom (files s)) as Hd1.
  { rewrite patch_torch_files.
    destruct (files s !! torch_cuda_init sp) as [old|] eqn:E; [|done].
    destruct (files s !! my_patch); [|done].
    apply dom_insert_lookup_L. by rewrite E. }
  assert (forall s0, dom (files (patch_onnx H sp s0).2) = dom (files s0))
    as Hd2.
  { intros s0. rewrite patch_onnx_files.
    destruct (files s0 !! onnx_exporter sp) as [raw|] eqn:E; [|done].
    destruct (decode H raw) as [content|]; [|done].
    destruct (contains broken_ref content); [|done].
    apply dom_insert_lookup_L. by rewrite E. }
  assert (forall p, p <> torch_cuda_init sp -> p <> onnx_exporter sp ->
            files (patch_onnx H sp (patch_torch sp s)).2 !! p = files s !! p)
    as Hframe.
  { intros p Hp1 Hp2.
    assert (files (patch_torch sp s) !! p = files s !! p) as <-.
    { rewrite patch_torch_files.
      destruct (files s !! torch_cuda_init sp); [|done].
      destruct (files s !! my_patch); [|done]. by rewrite lookup_insert_ne. }
    rewrite patch_onnx_files.
    destruct (files (patch_torch sp s) !! onnx_exporter sp) as [raw|]; [|done].
    destruct (decode H raw) as [content|]; [|done].
    destruct (contains broken_ref content); [|done].
    by rewrite lookup_insert_ne. }
  split; [by rewrite Hd2|]. split; [by apply Hframe|]. split; [|done].
  intros sp' p [= <-]. apply Hframe.
Qed.

Lemma apply_patches_touches_two_files_witness :
  files (apply_patches demo_patch_host
           {| files := {[ str "README.md" := [x41] ]}; printed := [] |}).2
    !! str "README.md" = Some [x41].
Proof.
  rewrite (proj1 (proj2 (proj2 (apply_patches_touches_two_files
             demo_patch_host
             {| files := {[ str "README.md" := [x41] ]}; printed := [] |})))
             (str "/venv/lib/python3.12/site-packages") (str "README.md")).
  - vm_compute. reflexivity.
  - reflexivity.
  - vm_compute. discriminate.
  - vm_compute. discriminate.
Defined.

(** X21.  The PyTorch patch: when both [torch/cuda/__init__.py] and the
    patch source exist, the former ends up with the bytes of the latter;
    when either is missing, the target is left as it was, the failure
    message is printed and the ONNX step still runs. *)
Theorem apply_patches_torch H s sp rest :
  getsitepackages H = sp :: rest ->
  (forall old patch,
     files s !! torch_cuda_init sp = Some old ->
     files s !! my_patch = Some patch ->
     files (apply_patches H s).2 !! torch_cuda_init sp = Some patch) /\
  (files s !! torch_cuda_init sp = None \/ files s !! my_patch = None ->
     files (apply_patches H s).2 !! torch_cuda_init sp
       = files s !! torch_cuda_init sp /\
     apply_patches H s = patch_onnx H sp (patch_print MsgTorchNotFound s)).
Proof.
  intros Hsp. unfold apply_patches. rewrite Hsp.
  destruct (patch_paths_distinct sp) as (_ & _ & Hto).
  assert (forall s0, files (patch_onnx H sp s0).2 !! torch_cuda_init sp
                     = files s0 !! torch_cuda_init sp) as Hkeep.
  { intros s0. rewrite patch_onnx_files.
    destruct (files s0 !! onnx_exporter sp) as [raw|]; [|done].
    destruct (decode H raw) as [content|]; [|done].
    destruct (contains broken_ref content); [|done].
    by rewrite lookup_insert_ne. }
  split.
  - intros old patch Ht Hp. rewrite Hkeep, patch_torch_files, Ht, Hp.
    apply lookup_insert_eq.
  - intros Hmiss.
    assert (patch_torch sp s = patch_print MsgTorchNotFound s) as ->.
    { unfold patch_torch. destruct Hmiss as [-> | Hm]; [done|].
      rewrite Hm. by destruct (files s !! torch_cuda_init sp). }
    split; [|done]. by rewrite Hkeep.
Qed.

Lemma apply_patches_torch_witness :
  files (apply_patches demo_patch_host
           {| files := {[ my_patch := [x41];
                          torch_cuda_init
                            (str "/venv/lib/python3.12/site-packages")
                            := [x42] ]};
              printed := [] |}).2
    !! torch_cuda_init (str "/venv/lib/python3.12/site-packages")
  = Some [x41].
Proof.
  apply (proj1 (apply_patches_torch demo_patch_host
                  {| files := {[ my_patch := [x41];
                                 torch_cuda_init
                                   (str "/venv/lib/python3.12/site-packages")
                                   := [x42] ]};
                     printed := [] |}
                  (str "/venv/lib/python3.12/site-packages") [] eq_refl)
           [x42] [x41]).
  - vm_compute. reflexivity.
  - vm_compute. reflexivity.
Defined.

(** X22.  The replacement of line 31 leaves no occurrence of the broken
    reference in any text, and a text without the reference is not
    changed by it. *)
Theorem broken_ref_replaced_everywhere content :
  contains broken_ref (py_replace broken_ref fixed_code content) = false /\
  (contains broken_ref content = false ->
   py_replace broken_ref fixed_code content = content).
Proof.
  split.
  - apply replace_from_clean, broken_ref_overlap_free.
  - apply replace_from_absent.
Qed.

Lemma broken_ref_replaced_everywhere_witness :
  py_replace broken_ref fixed_code (str "import onnx") = str "import onnx".
Proof.
  apply (proj2 (broken_ref_replaced_everywhere (str "import onnx"))).
  vm_compute. reflexivity.
Defined.

(** X23.  The ONNX file is rewritten only when it decodes and its text
    contains the broken reference; it then holds the encoding of the text
    with every occurrence replaced.  A file without the reference keeps its
    bytes, and a file that does not decode keeps its bytes while
    [UnicodeDecodeError] escapes. *)
Theorem apply_patches_onnx H s sp rest raw :
  getsitepackages H = sp :: rest ->
  files s !! onnx_exporter sp = Some raw ->
  match decode H raw with
  | Some content =>
      (apply_patches H s).1 = None /\
      files (apply_patches H s).2 !! onnx_exporter sp =
        Some (if contains broken_ref content
              then encode H (py_replace broken_ref fixed_code content)
              else raw)
  | None =>
      (apply_patches H s).1 = Some UnicodeDecodeError /\
      files (apply_patches H s).2 !! onnx_exporter sp = Some raw
  end.
Proof.
  intros Hsp Hraw. unfold apply_patches. rewrite Hsp.
  destruct (patch_paths_distinct sp) as (_ & _ & Hto).
  assert (files (patch_torch sp s) !! onnx_exporter sp = Some raw) as Hraw'.
  { rewrite patch_torch_files.
    destruct (files s !! torch_cuda_init sp); [|done].
    destruct (files s !! my_patch); [|done]. by rewrite lookup_insert_ne. }
  unfold patch_onnx. rewrite Hraw'.
  destruct (decode H raw) as [content|]; [|done].
  destruct (contains broken_ref content); simpl; [|done].
  split; [done|]. apply lookup_insert_eq.
Qed.

Lemma apply_patches_onnx_witness :
  files (apply_patches demo_patch_host
           {| files := {[ onnx_exporter
                            (str "/venv/lib/python3.12/site-packages")
                            := latin1_encode
                                 (str "f = onnx.helper.float32_to_bfloat16") ]};
              printed := [] |}).2
    !! onnx_exporter (str "/venv/lib/python3.12/site-packages")
  = Some (latin1_encode
            (str "f = lambda x: (x.view(np.uint32) >> 16).astype(np.uint16)")).
Proof.
  apply (apply_patches_onnx demo_patch_host
           {| files := {[ onnx_exporter
                            (str "/venv/lib/python3.12/site-packages")
                            := latin1_encode
                                 (str "f = onnx.helper.float32_to_bfloat16") ]};
              printed := [] |}
           (str "/venv/lib/python3.12/site-packages") []
           (latin1_encode (str "f = onnx.helper.float32_to_bfloat16"))).
  - reflexivity.
  - vm_compute. reflexivity.
Defined.

Lemma patch_onnx_result H sp s :
  (patch_onnx H sp s).1 =
  match files s !! onnx_exporter sp with
  | Some raw =>
      match decode H raw with
      | Some _ => None
      | None => Some UnicodeDecodeError
      end
  | None => None
  end.
Proof.
  unfold patch_onnx. destruct (files s !! onnx_exporter sp) as [raw|]; [|done].
  destruct (decode H raw) as [content|]; [|done].
  by destruct (contains broken_ref content).
Qed.

(** X24.  Patching is idempotent: after a run that ended without an
    exception, a second run ends without an exception and leaves every
    file as the first run left it, provided the text written to the ONNX
    file reads back as it was written. *)
Theorem apply_patches_idempotent H s :
  (apply_patches H s).1 = None ->
  (forall sp raw content,
     head (getsitepackages H) = Some sp ->
     files s !! onnx_exporter sp = Some raw ->
     decode H raw = Some content ->
     contains broken_ref content = true ->
     decode H (encode H (py_replace broken_ref fixed_code content))
       = Some (py_replace broken_ref fixed_code content)) ->
  (apply_patches H (apply_patches H s).2).1 = None /\
  files (apply_patches H (apply_patches H s).2).2
    = files (apply_patches H s).2.
Proof.
  unfold apply_patches. destruct (getsitepackages H) as [|sp rest]; [done|].
  intros Hok Hcodec. specialize (Hcodec sp).
  destruct (patch_paths_distinct sp) as (Htp & Hop & Hto).
  set (s1 := patch_torch sp s) in *.
  set (s2 := (patch_onnx H sp s1).2) in *.
  assert (files s1 !! onnx_exporter sp = files s !! onnx_exporter sp) as Ho1.
  { unfold s1. rewrite patch_torch_files.
    destruct (files s !! torch_cuda_init sp); [|done].
    destruct (files s !! my_patch); [|done]. by rewrite lookup_insert_ne. }
  assert (forall p, p <> onnx_exporter sp -> files s2 !! p = files s1 !! p)
    as Hs2.
  { intros p Hp. unfold s2. rewrite patch_onnx_files.
    destruct (files s1 !! onnx_exporter sp) as [raw|]; [|done].
    destruct (decode H raw) as [content|]; [|done].
    destruct (contains broken_ref content); [|done].
    by rewrite lookup_insert_ne. }
  assert (files (patch_torch sp s2) = files s2) as Ht2.
  { rewrite patch_torch_files, !Hs2 by done. unfold s1.
    rewrite patch_torch_files.
    destruct (files s !! torch_cuda_init sp) as [old|] eqn:Et.
    - destruct (files s !! my_patch) as [patch|] eqn:Ep.
      + rewrite lookup_insert_eq, lookup_insert_ne, Ep by done.
        apply insert_id. rewrite Hs2 by done. unfold s1.
        rewrite patch_torch_files, Et, Ep. apply lookup_insert_eq.
      + by rewrite Et, Ep.
    - by rewrite Et. }
  assert (files s2 !! onnx_exporter sp = None \/
          exists raw content,
            files s2 !! onnx_exporter sp = Some raw /\
            decode H raw = Some content /\
            contains broken_ref content = false) as Hclean.
  { rewrite patch_onnx_result in Hok. unfold s2. rewrite patch_onnx_files.
    rewrite Ho1 in *.
    destruct (files s !! onnx_exporter sp) as [raw|] eqn:Eo;
      [|left; by rewrite Ho1].
    destruct (decode H raw) as [content|] eqn:Ed; [|done].
    right. destruct (contains broken_ref content) eqn:Ec.
    - exists (encode H (py_replace broken_ref fixed_code content)),
             (py_replace broken_ref fixed_code content).
      split; [apply lookup_insert_eq|]. split; [by apply (Hcodec raw)|].
      apply replace_from_clean, broken_ref_overlap_free.
    - exists raw, content. by rewrite Ho1. }
  rewrite patch_onnx_result, patch_onnx_files, Ht2.
  destruct Hclean as [-> | (raw & content & -> & -> & ->)]; done.
Qed.

Lemma apply_patches_idempotent_witness :
  files (apply_patches demo_patch_host
           (apply_patches demo_patch_host
              {| files := {[ onnx_exporter
                               (str "/venv/lib/python3.12/site-packages")
                               := latin1_encode
                                    (str "onnx.helper.float32_to_bfloat16") ]};
                 printed := [] |}).2).2
  = files (apply_patches demo_patch_host
             {| files := {[ onnx_exporter
                              (str "/venv/lib/python3.12/site-packages")
                              := latin1_encode
                                   (str "onnx.helper.float32_to_bfloat16") ]};
                printed := [] |}).2.
Proof.
  apply (apply_patches_idempotent demo_patch_host
           {| files := {[ onnx_exporter
                            (str "/venv/lib/python3.12/site-packages")
                            := latin1_encode
                                 (str "onnx.helper.float32_to_bfloat16") ]};
              printed := [] |}).
  - vm_compute. reflexivity.
  - intros sp raw content [= <-] Hraw Hdec _.
    cbn [files] in Hraw. apply lookup_singleton_Some in Hraw as [_ <-].
    injection Hdec as <-. vm_compute. reflexivity.
Defined.
